(** * Profile creation endpoint: a shallow embedding

    The development follows the two modules of the service:

    - [schemas/profiles.py]: the request schema with its six field
      validators and the response schema;
    - [routes/profiles.py]: the [get_current_user] dependency and the
      [create_profile] handler of [POST /users/{user_id}/profile/].

    Python [str] values are modelled by [string], read as sequences of
    code points below 256 (Latin-1), where [str.lower] and [str.strip]
    act character by character.  Python [int] is [Z].  The relational
    store, the blob store and the token manager are state or interfaces
    that the handler receives; the effectful code is written in a small
    state-and-exception monad. *)

From Stdlib Require Import ZArith List String Ascii Bool Lia DecimalString.
From Stdlib Require Import Init.Byte.
From Stdlib Require DecimalPos DecimalZ.
Import ListNotations.

Local Open Scope string_scope.
Local Open Scope Z_scope.

(** ** Python strings *)

Module PyStr.

(** [str.isspace] on one code point below 256: TAB..CR, FS..US, space,
    NEL and the no-break space. *)
Definition is_space (c : ascii) : bool :=
  let n := N_of_ascii c in
  (((9 <=? n) && (n <=? 13)) || ((28 <=? n) && (n <=? 32))
   || (n =? 133) || (n =? 160))%N.

(** [str.lower] on one code point below 256: A..Z and the Latin-1
    capitals (all of C0..DE but the multiplication sign D7) move up by
    32, everything else stays. *)
Definition lower_char (c : ascii) : ascii :=
  let n := N_of_ascii c in
  if (((65 <=? n) && (n <=? 90))
      || ((192 <=? n) && (n <=? 222) && negb (n =? 215)))%N
  then ascii_of_N (n + 32) else c.

Fixpoint lower (s : string) : string :=
  match s with
  | EmptyString => EmptyString
  | String c s' => String (lower_char c) (lower s')
  end.

Fixpoint lstrip (s : string) : string :=
  match s with
  | EmptyString => EmptyString
  | String c s' => if is_space c then lstrip s' else s
  end.

Fixpoint rstrip (s : string) : string :=
  match s with
  | EmptyString => EmptyString
  | String c s' =>
      match rstrip s' with
      | EmptyString => if is_space c then EmptyString else String c EmptyString
      | r => String c r
      end
  end.

(** [s.strip()] *)
Definition strip (s : string) : string := rstrip (lstrip s).

(** [s.startswith(p)] *)
Definition startswith (s p : string) : bool := String.prefix p s.

(** Truth value of a [str]: only the empty string is falsy. *)
Definition truthy (s : string) : bool :=
  match s with EmptyString => false | _ => true end.

Fixpoint rev_onto (acc : string) (s : string) : string :=
  match s with
  | EmptyString => acc
  | String c s' => rev_onto (String c acc) s'
  end.

(** Worker of [split]: [skip] counts the characters of a separator
    already matched that are still to be passed over; [cur] is the
    current piece, reversed. *)
Fixpoint split_from (sep : string) (skip : nat) (cur : string) (s : string)
  : list string :=
  match s with
  | EmptyString => [rev_onto EmptyString cur]
  | String c s' =>
      match skip with
      | S k => split_from sep k cur s'
      | O =>
          if String.prefix sep s
          then rev_onto EmptyString cur
                 :: split_from sep (Nat.pred (String.length sep)) EmptyString s'
          else split_from sep O (String c cur) s'
      end
  end.

(** [s.split(sep)] for a non-empty separator: the pieces between the
    occurrences of [sep], found from the left without overlap. *)
Definition split (s sep : string) : list string :=
  split_from sep O EmptyString s.

(** [str(n)] for a Python [int]. *)
Definition of_int (n : Z) : string := NilZero.string_of_int (Z.to_int n).

Fixpoint zeros (n : nat) : string :=
  match n with
  | O => EmptyString
  | S k => String "0" (zeros k)
  end.

(** [s.zfill(w)] for the digits [s] of a non-negative number: zeros on
    the left up to the width [w]. *)
Definition zfill (s : string) (w : nat) : string :=
  zeros (w - String.length s) ++ s.

End PyStr.

(** ** Values of the token payload and of the form *)

(** The JSON scalars a decoded token can carry (numbers with a fraction,
    arrays and objects are left out). *)
Inductive PyValue : Type :=
| PyNone
| PyBool (b : bool)
| PyInt (n : Z)
| PyStr (s : string).

(** Truth value of a Python object, as tested by [not v]. *)
Definition truthy (v : PyValue) : bool :=
  match v with
  | PyNone => false
  | PyBool b => b
  | PyInt n => negb (n =? 0)
  | PyStr s => PyStr.truthy s
  end.

(** A [dict] with [str] keys. *)
Definition PyDict : Type := list (string * PyValue).

Fixpoint dict_lookup (d : PyDict) (k : string) : option PyValue :=
  match d with
  | [] => None
  | (k', v) :: d' => if String.eqb k' k then Some v else dict_lookup d' k
  end.

(** [k in d] *)
Definition dict_contains (d : PyDict) (k : string) : bool :=
  match dict_lookup d k with Some _ => true | None => false end.

(** [d.get(k)]: the value, or Python's [None] for a missing key. *)
Definition dict_get (d : PyDict) (k : string) : PyValue :=
  match dict_lookup d k with Some v => v | None => PyNone end.

(** [datetime.date] *)
Record date : Type := { year : Z; month : Z; day : Z }.

(** [str(d)], the ISO form [YYYY-MM-DD]. *)
Definition date_str (d : date) : string :=
  PyStr.zfill (PyStr.of_int (year d)) 4 ++ "-"
  ++ PyStr.zfill (PyStr.of_int (month d)) 2 ++ "-"
  ++ PyStr.zfill (PyStr.of_int (day d)) 2.

(** [fastapi.UploadFile]: the name the client gave and the bytes that
    [read()] returns. *)
Record UploadFile : Type := { filename : string; file : list byte }.

Definition read (f : UploadFile) : list byte := file f.

(** ** HTTP errors *)

(** One entry of a 422 detail list. *)
Record ErrorEntry : Type :=
  { type_ : string; loc : list string; msg : string; input : string }.

(** The [detail] of an [HTTPException]: a plain message or a list of
    structured entries. *)
Inductive Detail : Type :=
| Message (text : string)
| Entries (l : list ErrorEntry).

Record HTTPException : Type := { status_code : Z; detail : Detail }.

Definition HTTP_201_CREATED : Z := 201.
Definition HTTP_400_BAD_REQUEST : Z := 400.
Definition HTTP_401_UNAUTHORIZED : Z := 401.
Definition HTTP_403_FORBIDDEN : Z := 403.
Definition HTTP_422_UNPROCESSABLE_ENTITY : Z := 422.
Definition HTTP_500_INTERNAL_SERVER_ERROR : Z := 500.

(** A computation either returns or raises an [HTTPException]. *)
Inductive outcome (A : Type) : Type :=
| Returned (a : A)
| Raised (e : HTTPException).
Arguments Returned {A} a.
Arguments Raised {A} e.

(** ** The [validation] module *)

(** What a call to one of the module's checks does: return, or raise
    [ValueError] with the given text. *)
Inductive checked : Type :=
| Passes
| ValueError (text : string).

(** The four checks the schema imports.  Their bodies are not part of
    the sources; the schema is verified for every implementation. *)
Class Validation : Type :=
  { validate_name : string -> checked;
    validate_image : UploadFile -> checked;
    validate_gender : string -> checked;
    validate_birth_date : date -> checked }.

(** ** Sequencing *)

Class Monad (m : Type -> Type) : Type :=
  { ret : forall {A : Type}, A -> m A;
    bind : forall {A B : Type}, m A -> (A -> m B) -> m B }.

Declare Scope monad_scope.
Delimit Scope monad_scope with monad.
Notation "x <- c ;; k" := (bind c (fun x => k))
  (at level 61, c at next level, right associativity) : monad_scope.
Notation "c ;;; k" := (bind c (fun _ => k))
  (at level 61, right associativity) : monad_scope.
Local Open Scope monad_scope.

#[export] Instance Monad_outcome : Monad outcome :=
  { ret := fun A a => Returned a;
    bind := fun A B c k =>
      match c with
      | Returned a => k a
      | Raised e => Raised e
      end }.

(** ** schemas/profiles.py *)

Module ProfileCreateRequestSchema.

Record t : Type :=
  { first_name : string;
    last_name : string;
    gender : string;
    date_of_birth : date;
    info : string;
    avatar : UploadFile }.

Section Validators.
Context `{Validation}.

Definition validate_first_name (value : string) : outcome string :=
  match validate_name value with
  | ValueError e =>
      Raised {| status_code := HTTP_422_UNPROCESSABLE_ENTITY;
                detail := Entries [ {| type_ := "value_error";
                                       loc := ["first_name"];
                                       msg := e;
                                       input := value |} ] |}
  | Passes => Returned (PyStr.strip (PyStr.lower value))
  end.

Definition validate_last_name (value : string) : outcome string :=
  match validate_name value with
  | ValueError e =>
      Raised {| status_code := HTTP_422_UNPROCESSABLE_ENTITY;
                detail := Entries [ {| type_ := "value_error";
                                       loc := ["last_name"];
                                       msg := e;
                                       input := value |} ] |}
  | Passes => Returned (PyStr.strip (PyStr.lower value))
  end.

Definition validate_gender_field (value : string) : outcome string :=
  match validate_gender value with
  | ValueError e =>
      Raised {| status_code := HTTP_422_UNPROCESSABLE_ENTITY;
                detail := Entries [ {| type_ := "value_error";
                                       loc := ["gender"];
                                       msg := e;
                                       input := value |} ] |}
  | Passes => Returned value
  end.

Definition validate_age (value : date) : outcome date :=
  match validate_birth_date value with
  | ValueError e =>
      Raised {| status_code := HTTP_422_UNPROCESSABLE_ENTITY;
                detail := Entries [ {| type_ := "value_error";
                                       loc := ["date_of_birth"];
                                       msg := e;
                                       input := date_str value |} ] |}
  | Passes => Returned value
  end.

Definition validate_info_field (value : string) : outcome string :=
  let clean_info := PyStr.strip value in
  if negb (PyStr.truthy clean_info)
  then
    Raised {| status_code := HTTP_422_UNPROCESSABLE_ENTITY;
              detail := Entries
                [ {| type_ := "value_error";
                     loc := ["info"];
                     msg := "Info field cannot be empty or contain only spaces.";
                     input := value |} ] |}
  else Returned clean_info.

Definition validate_avatar (value : UploadFile) : outcome UploadFile :=
  match validate_image value with
  | ValueError e =>
      Raised {| status_code := HTTP_422_UNPROCESSABLE_ENTITY;
                detail := Entries [ {| type_ := "value_error";
                                       loc := ["avatar"];
                                       msg := e;
                                       input := filename value |} ] |}
  | Passes => Returned value
  end.

(** [cls(first_name=..., ...)]: the model runs the field validators
    in the order of the field declarations; an [HTTPException] is
    neither a [ValueError] nor an [AssertionError], so the first one
    raised leaves the constructor as it is. *)
Definition construct (first_name last_name gender : string)
    (date_of_birth : date) (info : string) (avatar : UploadFile)
  : outcome t :=
  first_name <- validate_first_name first_name;;
  last_name <- validate_last_name last_name;;
  gender <- validate_gender_field gender;;
  date_of_birth <- validate_age date_of_birth;;
  info <- validate_info_field info;;
  avatar <- validate_avatar avatar;;
  ret {| first_name := first_name;
         last_name := last_name;
         gender := gender;
         date_of_birth := date_of_birth;
         info := info;
         avatar := avatar |}.

Definition as_form (first_name last_name gender : string)
    (date_of_birth : date) (info : string) (avatar : UploadFile)
  : outcome t :=
  construct first_name last_name gender date_of_birth info avatar.

End Validators.

End ProfileCreateRequestSchema.

Module ProfileCreateResponseSchema.

Record t : Type :=
  { id : Z;
    user_id : Z;
    first_name : string;
    last_name : string;
    gender : string;
    date_of_birth : date;
    info : string;
    avatar : string }.

End ProfileCreateResponseSchema.

(** ** The [database] module *)

(** Modelled from the spec: [database.UserGroupEnum] is not part of the
    sources.  An account has a group or role with at least an [ADMIN]
    variant; [USER] stands for every group that is not [ADMIN]. *)
Inductive UserGroupEnum : Type :=
| USER
| ADMIN.

Definition UserGroupEnum_eqb (a b : UserGroupEnum) : bool :=
  match a, b with
  | USER, USER | ADMIN, ADMIN => true
  | _, _ => false
  end.

(** Modelled from the spec: [database.UserModel] is not part of the
    sources.  An account has an identifier, an active flag and a group;
    [has_group] tells whether the account has the given role. *)
Module UserModel.

Record t : Type :=
  { id : Z;
    is_active : bool;
    group : UserGroupEnum }.

Definition has_group (self : t) (g : UserGroupEnum) : bool :=
  UserGroupEnum_eqb (group self) g.

End UserModel.

(** Modelled from the spec: [database.UserProfileModel] is not part of
    the sources.  A profile row has a surrogate identifier, the account
    it belongs to, the five validated fields and the storage key of
    the avatar. *)
Module UserProfileModel.

Record t : Type :=
  { id : Z;
    user_id : Z;
    first_name : string;
    last_name : string;
    gender : string;
    date_of_birth : date;
    info : string;
    avatar : string }.

End UserProfileModel.

(** The relational store: the two tables and the sequence from which the
    next profile identifier is drawn at insert. *)
Record Database : Type :=
  { users : list UserModel.t;
    profiles : list UserProfileModel.t;
    profile_id_seq : Z }.

(** How the backend binds a Python value that is not an [int] to the
    integer [id] column of a [where] clause: the integer it is compared
    as, or [None] when no row can match.  It depends on the driver. *)
Class SqlBackend : Type :=
  { bind_non_int : PyValue -> option Z }.

Definition bind_integer `{SqlBackend} (v : PyValue) : option Z :=
  match v with
  | PyInt n => Some n
  | other => bind_non_int other
  end.

(** [select(UserModel).where(UserModel.id == n)], first row. *)
Definition select_user (d : Database) (n : Z) : option UserModel.t :=
  find (fun u => UserModel.id u =? n) (users d).

(** The [profile] relationship of an account, as [joinedload] fills it. *)
Definition UserModel_profile (d : Database) (u : UserModel.t)
  : option UserProfileModel.t :=
  find (fun p => UserProfileModel.user_id p =? UserModel.id u) (profiles d).

(** [db.add(row); db.commit()]: the row receives the next identifier. *)
Definition insert_profile (d : Database) (row : UserProfileModel.t)
  : Database * UserProfileModel.t :=
  let row' := {| UserProfileModel.id := profile_id_seq d;
                 UserProfileModel.user_id := UserProfileModel.user_id row;
                 UserProfileModel.first_name := UserProfileModel.first_name row;
                 UserProfileModel.last_name := UserProfileModel.last_name row;
                 UserProfileModel.gender := UserProfileModel.gender row;
                 UserProfileModel.date_of_birth := UserProfileModel.date_of_birth row;
                 UserProfileModel.info := UserProfileModel.info row;
                 UserProfileModel.avatar := UserProfileModel.avatar row |} in
  ({| users := users d;
      profiles := (profiles d ++ [row'])%list;
      profile_id_seq := profile_id_seq d + 1 |}, row').

(** ** Collaborator interfaces *)

(** [storages.S3StorageInterface] over a store of type [S]:
    [upload_file] returns the store with the object put under the key,
    or [None] when it raises [S3FileUploadError]; [get_file_url]
    resolves a key to a URL. *)
Class S3StorageInterface (S : Type) : Type :=
  { upload_file : S -> string -> list byte -> option S;
    get_file_url : S -> string -> string }.

(** What [decode_access_token] does: return the payload or raise one of
    the two token errors. *)
Inductive decoded : Type :=
| Payload (payload : PyDict)
| TokenExpiredError
| InvalidTokenError.

(** [security.interfaces.JWTAuthManagerInterface], as far as the route
    uses it. *)
Class JWTAuthManagerInterface (J : Type) : Type :=
  { decode_access_token : J -> string -> decoded }.

(** ** The world a request runs in *)

(** The calls to the operations that change a store, in the order they
    are made: an upload is recorded when [upload_file] is called,
    whether it succeeds or raises, and an insert when the commit is
    made. *)
Inductive Write : Type :=
| BlobUpload (key : string) (data : list byte)
| RowInsert (row : UserProfileModel.t).

Record World (S : Type) : Type :=
  { db : Database;
    s3 : S;
    journal : list Write }.
Arguments db {S} w.
Arguments s3 {S} w.
Arguments journal {S} w.

(** State and exceptions: a computation runs from a world to an outcome
    and the world it leaves. *)
Definition M (S A : Type) : Type := World S -> outcome A * World S.

#[export] Instance Monad_M (S : Type) : Monad (M S) :=
  { ret := fun A a w => (Returned a, w);
    bind := fun A B c k w =>
      match c w with
      | (Returned a, w') => k a w'
      | (Raised e, w') => (Raised e, w')
      end }.

Definition raise {S A : Type} (e : HTTPException) : M S A :=
  fun w => (Raised e, w).

(** A pure computation that may raise, run in place. *)
Definition lift {S A : Type} (c : outcome A) : M S A :=
  fun w => (c, w).

(** [raise HTTPException(status_code=..., detail="...")] *)
Definition raise_http {S A : Type} (code : Z) (text : string) : M S A :=
  raise {| status_code := code; detail := Message text |}.

(** [await db.scalar(select(UserModel).where(UserModel.id == v))] *)
Definition scalar_user `{SqlBackend} {S : Type} (v : PyValue)
  : M S (option UserModel.t) :=
  fun w =>
    (Returned match bind_integer v with
              | Some n => select_user (db w) n
              | None => None
              end, w).

(** [user.profile] of a row loaded with its relationship. *)
Definition loaded_profile {S : Type} (u : UserModel.t)
  : M S (option UserProfileModel.t) :=
  fun w => (Returned (UserModel_profile (db w) u), w).

(** [await s3_client.upload_file(file_name=..., file_data=...)] inside
    [try ... except S3FileUploadError: raise HTTPException(code, text)]. *)
Definition try_upload_file {S : Type} `{S3StorageInterface S}
    (file_name : string) (file_data : list byte) (code : Z) (text : string)
  : M S unit :=
  fun w =>
    let called := (journal w ++ [BlobUpload file_name file_data])%list in
    match upload_file (s3 w) file_name file_data with
    | Some s' => (Returned tt, {| db := db w; s3 := s'; journal := called |})
    | None =>
        (Raised {| status_code := code; detail := Message text |},
         {| db := db w; s3 := s3 w; journal := called |})
    end.

(** [db.add(profile); await db.commit()] *)
Definition add_commit {S : Type} (row : UserProfileModel.t)
  : M S UserProfileModel.t :=
  fun w =>
    let '(d, row') := insert_profile (db w) row in
    (Returned row',
     {| db := d; s3 := s3 w; journal := (journal w ++ [RowInsert row'])%list |}).

(** [await s3_client.get_file_url(key)] *)
Definition file_url {S : Type} `{S3StorageInterface S} (key : string)
  : M S string :=
  fun w => (Returned (get_file_url (s3 w) key), w).

(** ** routes/profiles.py *)

(** What the route reads of a request: the value of
    [request.headers.get("Authorization")], the [user_id] path
    parameter and the decoded multipart form. *)
Record Request : Type :=
  { authorization : option string;
    path_user_id : Z;
    form_first_name : string;
    form_last_name : string;
    form_gender : string;
    form_date_of_birth : date;
    form_info : string;
    form_avatar : UploadFile }.

(** The text the server answers with when an exception that is not an
    [HTTPException] leaves the handler. *)
Definition internal_server_error : HTTPException :=
  {| status_code := HTTP_500_INTERNAL_SERVER_ERROR;
     detail := Message "Internal Server Error" |}.

Section Routes.
Context {S J : Type}.
Context `{Validation} `{SqlBackend}.
Context `{S3StorageInterface S} `{JWTAuthManagerInterface J}.

Definition get_current_user (request : Request) (jwt_manager : J)
  : M S UserModel.t :=
  match authorization request with
  | None => raise_http 401 "Authorization header is missing"
  | Some auth_header =>
      if negb (PyStr.truthy auth_header)
      then raise_http 401 "Authorization header is missing"
      else if negb (PyStr.startswith auth_header "Bearer ")
      then raise_http 401
             "Invalid Authorization header format. Expected 'Bearer <token>'"
      else
        match nth_error (PyStr.split auth_header "Bearer ") 1 with
        | None => raise internal_server_error  (* IndexError *)
        | Some token =>
            match decode_access_token jwt_manager token with
            | TokenExpiredError =>
                raise_http HTTP_401_UNAUTHORIZED "Token has expired."
            | InvalidTokenError =>
                raise_http HTTP_401_UNAUTHORIZED "Invalid token."
            | Payload payload =>
                let user_id := dict_get payload "user_id" in
                if negb (truthy user_id)
                then raise_http HTTP_401_UNAUTHORIZED "Invalid token."
                else
                  user <- scalar_user user_id;;
                  match user with
                  | None =>
                      raise_http HTTP_401_UNAUTHORIZED
                        "User not found or not active."
                  | Some user =>
                      if negb (UserModel.is_active user)
                      then raise_http HTTP_401_UNAUTHORIZED
                             "User not found or not active."
                      else ret user
                  end
            end
        end
  end.

Definition create_profile (user_id : Z)
    (profile_data : ProfileCreateRequestSchema.t)
    (current_user : UserModel.t)
  : M S ProfileCreateResponseSchema.t :=
  user <- scalar_user (PyInt user_id);;
  match user with
  | None =>
      raise_http HTTP_401_UNAUTHORIZED "User not found or not active."
  | Some user =>
      if negb (UserModel.is_active user)
      then raise_http HTTP_401_UNAUTHORIZED "User not found or not active."
      else if negb (user_id =? UserModel.id current_user)
              && negb (UserModel.has_group current_user ADMIN)
      then raise_http HTTP_403_FORBIDDEN
             "You don't have permission to edit this profile."
      else
        user_profile <- loaded_profile user;;
        match user_profile with
        | Some _ =>
            raise_http HTTP_400_BAD_REQUEST "User already has a profile."
        | None =>
            let avatar_byte_data :=
              read (ProfileCreateRequestSchema.avatar profile_data) in
            let avatar_path :=
              "avatars/" ++ PyStr.of_int (UserModel.id user) ++ "_"
              ++ filename (ProfileCreateRequestSchema.avatar profile_data) in
            try_upload_file avatar_path avatar_byte_data
              HTTP_500_INTERNAL_SERVER_ERROR
              "Failed to upload avatar. Please try again later.";;;
            let profile :=
              {| UserProfileModel.id := 0;  (* unset until the commit *)
                 UserProfileModel.first_name :=
                   ProfileCreateRequestSchema.first_name profile_data;
                 UserProfileModel.last_name :=
                   ProfileCreateRequestSchema.last_name profile_data;
                 UserProfileModel.gender :=
                   ProfileCreateRequestSchema.gender profile_data;
                 UserProfileModel.date_of_birth :=
                   ProfileCreateRequestSchema.date_of_birth profile_data;
                 UserProfileModel.info :=
                   ProfileCreateRequestSchema.info profile_data;
                 UserProfileModel.avatar := avatar_path;
                 UserProfileModel.user_id := UserModel.id user |} in
            profile <- add_commit profile;;
            avatar_url <- file_url (UserProfileModel.avatar profile);;
            ret {| ProfileCreateResponseSchema.id :=
                     UserProfileModel.id profile;
                   ProfileCreateResponseSchema.user_id :=
                     UserProfileModel.user_id profile;
                   ProfileCreateResponseSchema.first_name :=
                     UserProfileModel.first_name profile;
                   ProfileCreateResponseSchema.last_name :=
                     UserProfileModel.last_name profile;
                   ProfileCreateResponseSchema.gender :=
                     UserProfileModel.gender profile;
                   ProfileCreateResponseSchema.date_of_birth :=
                     UserProfileModel.date_of_birth profile;
                   ProfileCreateResponseSchema.info :=
                     UserProfileModel.info profile;
                   ProfileCreateResponseSchema.avatar := avatar_url |}
        end
  end.

(** The route [POST /users/{user_id}/profile/].  The framework solves
    the dependencies of [create_profile] in the order of its
    parameters, [profile_data] (the form through [as_form]) before
    [current_user] (through [get_current_user]), and calls the
    handler only when both have returned. *)
Definition endpoint (request : Request) (jwt_manager : J)
  : M S ProfileCreateResponseSchema.t :=
  profile_data <-
    lift (ProfileCreateRequestSchema.as_form
            (form_first_name request) (form_last_name request)
            (form_gender request) (form_date_of_birth request)
            (form_info request) (form_avatar request));;
  current_user <- get_current_user request jwt_manager;;
  create_profile (path_user_id request) profile_data current_user.

End Routes.

(** ** Responses *)

Inductive Content : Type :=
| ProfileJSON (body : ProfileCreateResponseSchema.t)
| DetailJSON (d : Detail).

Record Response : Type := { status : Z; content : Content }.

(** The route is declared with [status_code=HTTP_201_CREATED]; an
    [HTTPException] is answered with its own status and detail. *)
Definition respond (o : outcome ProfileCreateResponseSchema.t) : Response :=
  match o with
  | Returned body => {| status := HTTP_201_CREATED; content := ProfileJSON body |}
  | Raised e => {| status := status_code e; content := DetailJSON (detail e) |}
  end.

Definition post_profile {S J : Type}
    `{Validation} `{SqlBackend}
    `{S3StorageInterface S} `{JWTAuthManagerInterface J}
    (request : Request) (jwt_manager : J) (w : World S)
  : Response * World S :=
  let '(o, w') := endpoint request jwt_manager w in (respond o, w').

(** ** A concrete deployment

    One implementation of each collaborator and one state of the
    stores, on which the statements below are exercised. *)

Module Deployment.

Definition is_letter (c : ascii) : bool :=
  let n := N_of_ascii c in
  (((65 <=? n) && (n <=? 90)) || ((97 <=? n) && (n <=? 122)))%N.

Fixpoint all_chars (p : ascii -> bool) (s : string) : bool :=
  match s with
  | EmptyString => true
  | String c s' => p c && all_chars p s'
  end.

(** Modelled from the spec: [validation.validate_name] is not part of
    the sources.  A name is non-empty after trimming and made of
    letters (blanks around it are tolerated here). *)
Definition name_rule (value : string) : checked :=
  if PyStr.truthy (PyStr.strip value)
     && all_chars (fun c => is_letter c || PyStr.is_space c) value
  then Passes
  else ValueError (value ++ " contains non-english letters").

(** Modelled from the spec: [validation.validate_gender] is not part
    of the sources.  The gender is one of a fixed closed set. *)
Definition gender_rule (value : string) : checked :=
  if String.eqb value "man" || String.eqb value "woman"
  then Passes
  else ValueError ("Gender must be one of: man, woman").

(** Modelled from the spec: [validation.validate_birth_date] is not
    part of the sources.  The date is not in the future and not
    before a floor; only the year is looked at, and the request is
    made in 2026. *)
Definition birth_date_rule (value : date) : checked :=
  if year value <=? 1900
  then ValueError "Invalid birth date - year must be greater than 1900."
  else if 2026 <? year value
  then ValueError "Invalid birth date - the date is in the future."
  else Passes.

(** Modelled from the spec: [validation.validate_image] is not part of
    the sources.  The attachment is an image of an allowed type, told
    here by the JPEG or PNG signature, under a maximum size. *)
Definition image_rule (value : UploadFile) : checked :=
  match file value with
  | xff :: xd8 :: _ | x89 :: x50 :: _ =>
      if Z.of_nat (List.length (file value)) <=? 1048576
      then Passes
      else ValueError "Image size exceeds 1 MB"
  | _ => ValueError "Invalid image format"
  end.

#[export] Instance validation : Validation :=
  { validate_name := name_rule;
    validate_image := image_rule;
    validate_gender := gender_rule;
    validate_birth_date := birth_date_rule }.

(** A backend that binds [True] and [False] as 1 and 0 and matches no
    row for any other value that is not an integer. *)
#[export] Instance backend : SqlBackend :=
  { bind_non_int := fun v =>
      match v with
      | PyBool b => Some (Z.b2z b)
      | _ => None
      end }.

(** A blob store in memory, with a switch that makes uploads fail. *)
Record Bucket : Type :=
  { reachable : bool;
    objects : list (string * list byte) }.

#[export] Instance bucket_storage : S3StorageInterface Bucket :=
  { upload_file := fun b key data =>
      if reachable b
      then Some {| reachable := true;
                   objects :=
                     (key, data)
                       :: filter (fun o => negb (String.eqb (fst o) key))
                                 (objects b) |}
      else None;
    get_file_url := fun _ key => "http://storage.test/bucket/" ++ key }.

(** A token manager given by the table of the tokens it recognises;
    any other token is invalid. *)
Definition TokenTable : Type := list (string * decoded).

Fixpoint table_decode (t : TokenTable) (token : string) : decoded :=
  match t with
  | [] => InvalidTokenError
  | (k, r) :: t' => if String.eqb k token then r else table_decode t' token
  end.

#[export] Instance table_manager : JWTAuthManagerInterface TokenTable :=
  { decode_access_token := table_decode }.

Definition jwt_manager : TokenTable :=
  [ ("admin", Payload [("user_id", PyInt 1); ("exp", PyInt 1900000000)]);
    ("ada", Payload [("user_id", PyInt 2)]);
    ("bob", Payload [("user_id", PyInt 5)]);
    ("zero", Payload [("user_id", PyInt 0)]);
    ("null", Payload [("user_id", PyNone)]);
    ("blank", Payload [("user_id", PyStr "")]);
    ("nobody", Payload [("sub", PyStr "x")]);
    ("ghost", Payload [("user_id", PyInt 404)]);
    ("old", TokenExpiredError) ].

Definition account (n : Z) (active : bool) (g : UserGroupEnum) : UserModel.t :=
  {| UserModel.id := n; UserModel.is_active := active; UserModel.group := g |}.

Definition carol_profile : UserProfileModel.t :=
  {| UserProfileModel.id := 1;
     UserProfileModel.user_id := 9;
     UserProfileModel.first_name := "carol";
     UserProfileModel.last_name := "jones";
     UserProfileModel.gender := "woman";
     UserProfileModel.date_of_birth := {| year := 1990; month := 4; day := 2 |};
     UserProfileModel.info := "hello";
     UserProfileModel.avatar := "avatars/9_c.png" |}.

Definition database : Database :=
  {| users := [ account 0 true USER; account 1 true ADMIN;
                account 2 true USER; account 5 true USER;
                account 7 false USER; account 9 true USER ];
     profiles := [ carol_profile ];
     profile_id_seq := 2 |}.

Definition world : World Bucket :=
  {| db := database;
     s3 := {| reachable := true; objects := [] |};
     journal := [] |}.

(** The same stores with the blob store out of reach. *)
Definition world_offline : World Bucket :=
  {| db := database;
     s3 := {| reachable := false; objects := [] |};
     journal := [] |}.

Definition jpeg : UploadFile :=
  {| filename := "me.jpg"; file := [xff; xd8; xff; xe0; x00; x10] |}.

(** A well-formed request: the caller of the token [bearer] creates
    the profile of account [target]. *)
Definition request (bearer : string) (target : Z) : Request :=
  {| authorization := Some ("Bearer " ++ bearer);
     path_user_id := target;
     form_first_name := "  Ada ";
     form_last_name := "LOVELACE";
     form_gender := "woman";
     form_date_of_birth := {| year := 1995; month := 12; day := 10 |};
     form_info := " First programmer. ";
     form_avatar := jpeg |}.

Definition with_info (r : Request) (text : string) : Request :=
  {| authorization := authorization r;
     path_user_id := path_user_id r;
     form_first_name := form_first_name r;
     form_last_name := form_last_name r;
     form_gender := form_gender r;
     form_date_of_birth := form_date_of_birth r;
     form_info := text;
     form_avatar := form_avatar r |}.

(** The form of [request] as the schema returns it. *)
Definition validated_form : ProfileCreateRequestSchema.t :=
  {| ProfileCreateRequestSchema.first_name := "ada";
     ProfileCreateRequestSchema.last_name := "lovelace";
     ProfileCreateRequestSchema.gender := "woman";
     ProfileCreateRequestSchema.date_of_birth :=
       {| year := 1995; month := 12; day := 10 |};
     ProfileCreateRequestSchema.info := "First programmer.";
     ProfileCreateRequestSchema.avatar := jpeg |}.

(** The body answered when the admin creates the profile of account 2
    in [world]. *)
Definition created_body : ProfileCreateResponseSchema.t :=
  {| ProfileCreateResponseSchema.id := 2;
     ProfileCreateResponseSchema.user_id := 2;
     ProfileCreateResponseSchema.first_name := "ada";
     ProfileCreateResponseSchema.last_name := "lovelace";
     ProfileCreateResponseSchema.gender := "woman";
     ProfileCreateResponseSchema.date_of_birth :=
       {| year := 1995; month := 12; day := 10 |};
     ProfileCreateResponseSchema.info := "First programmer.";
     ProfileCreateResponseSchema.avatar :=
       "http://storage.test/bucket/avatars/2_me.jpg" |}.

(** Bob (account 5, not an admin) asks for the profile of account 2
    with an info made of blanks only. *)
Definition blank_info_request : Request :=
  with_info (request "bob" 2) "   ".

End Deployment.

(** ** Vocabulary of the statements *)

Section Vocabulary.
Context {S J : Type}.
Context `{Validation} `{SqlBackend}.
Context `{S3StorageInterface S} `{JWTAuthManagerInterface J}.

(** The token [get_current_user] hands to the manager, when the
    header has the [Bearer] form. *)
Definition presented_token (request : Request) : option string :=
  match authorization request with
  | Some auth_header =>
      if PyStr.startswith auth_header "Bearer "
      then nth_error (PyStr.split auth_header "Bearer ") 1
      else None
  | None => None
  end.

(** The active account a subject identifier designates, if any. *)
Definition active_account (d : Database) (subject : PyValue)
  : option UserModel.t :=
  match bind_integer subject with
  | Some n =>
      match select_user d n with
      | Some u => if UserModel.is_active u then Some u else None
      | None => None
      end
  | None => None
  end.

(** The payload has no [user_id] claim at all. *)
Definition subject_absent (payload : PyDict) : Prop :=
  dict_contains payload "user_id" = false.

(** The payload has no [user_id] claim, or a falsy one. *)
Definition subject_falsy (payload : PyDict) : Prop :=
  truthy (dict_get payload "user_id") = false.

(** The six ways identity resolution is said to fail, with the test
    for a payload without subject left open. *)
Definition identity_failure (no_subject : PyDict -> Prop)
    (request : Request) (jwt_manager : J) (d : Database) : Prop :=
  authorization request = None
  \/ (exists auth_header,
        authorization request = Some auth_header
        /\ PyStr.startswith auth_header "Bearer " = false)
  \/ (exists token,
        presented_token request = Some token
        /\ (decode_access_token jwt_manager token = TokenExpiredError
            \/ decode_access_token jwt_manager token = InvalidTokenError
            \/ exists payload,
                 decode_access_token jwt_manager token = Payload payload
                 /\ (no_subject payload
                     \/ active_account d (dict_get payload "user_id")
                        = None))).

(** The form of a request passes the schema. *)
Definition form_validated (request : Request)
    (profile_data : ProfileCreateRequestSchema.t) : Prop :=
  ProfileCreateRequestSchema.as_form
    (form_first_name request) (form_last_name request)
    (form_gender request) (form_date_of_birth request)
    (form_info request) (form_avatar request)
  = Returned profile_data.

(** The caller may act on the target: self-service or admin. *)
Definition permitted (current_user : UserModel.t) (user_id : Z) : bool :=
  (user_id =? UserModel.id current_user)
  || UserModel.has_group current_user ADMIN.

(** Validation, identity resolution, the target check, the
    authorization check and the uniqueness check all succeed. *)
Definition checks_pass (request : Request) (jwt_manager : J) (w : World S)
    (profile_data : ProfileCreateRequestSchema.t)
    (current_user target : UserModel.t) : Prop :=
  form_validated request profile_data
  /\ fst (get_current_user request jwt_manager w) = Returned current_user
  /\ select_user (db w) (path_user_id request) = Some target
  /\ UserModel.is_active target = true
  /\ permitted current_user (path_user_id request) = true
  /\ UserModel_profile (db w) target = None.

(** The storage key the handler derives for an avatar. *)
Definition avatar_key (account_id : Z) (original_filename : string) : string :=
  "avatars/" ++ PyStr.of_int account_id ++ "_" ++ original_filename.

(** The entry a field validator reports. *)
Definition value_error (field text raw : string) : ErrorEntry :=
  {| type_ := "value_error"; loc := [field]; msg := text; input := raw |}.

(** [entry] reports a field of the request whose value violates the
    rule of that field: it names the field, gives the reason and
    carries the submitted value (the ISO text of the date, the file
    name of the attachment). *)
Definition violation (request : Request) (entry : ErrorEntry) : Prop :=
  (exists text, validate_name (form_first_name request) = ValueError text
     /\ entry = value_error "first_name" text (form_first_name request))
  \/ (exists text, validate_name (form_last_name request) = ValueError text
     /\ entry = value_error "last_name" text (form_last_name request))
  \/ (exists text, validate_gender (form_gender request) = ValueError text
     /\ entry = value_error "gender" text (form_gender request))
  \/ (exists text,
       validate_birth_date (form_date_of_birth request) = ValueError text
     /\ entry = value_error "date_of_birth" text
                  (date_str (form_date_of_birth request)))
  \/ (PyStr.strip (form_info request) = ""
     /\ entry = value_error "info"
                  "Info field cannot be empty or contain only spaces."
                  (form_info request))
  \/ (exists text, validate_image (form_avatar request) = ValueError text
     /\ entry = value_error "avatar" text (filename (form_avatar request))).

(** The row the commit stores for a validated form: the identifier
    drawn from the sequence, the target account, the validated fields
    and the storage key. *)
Definition stored_row (d : Database) (user_id : Z)
    (profile_data : ProfileCreateRequestSchema.t) : UserProfileModel.t :=
  {| UserProfileModel.id := profile_id_seq d;
     UserProfileModel.user_id := user_id;
     UserProfileModel.first_name :=
       ProfileCreateRequestSchema.first_name profile_data;
     UserProfileModel.last_name :=
       ProfileCreateRequestSchema.last_name profile_data;
     UserProfileModel.gender :=
       ProfileCreateRequestSchema.gender profile_data;
     UserProfileModel.date_of_birth :=
       ProfileCreateRequestSchema.date_of_birth profile_data;
     UserProfileModel.info :=
       ProfileCreateRequestSchema.info profile_data;
     UserProfileModel.avatar :=
       avatar_key user_id
         (filename (ProfileCreateRequestSchema.avatar profile_data)) |}.

(** The paths of a request through the route: what it answers and the
    world it leaves, with the conditions under which each path is
    taken.  [endpoint_paths] below shows that [endpoint] always follows
    one of them. *)
Inductive path_of (request : Request) (jwt_manager : J) (w : World S)
  : outcome ProfileCreateResponseSchema.t -> World S -> Prop :=
| path_invalid_form (e : HTTPException) :
    ProfileCreateRequestSchema.as_form
      (form_first_name request) (form_last_name request)
      (form_gender request) (form_date_of_birth request)
      (form_info request) (form_avatar request) = Raised e ->
    path_of request jwt_manager w (Raised e) w
| path_unauthenticated (profile_data : ProfileCreateRequestSchema.t)
    (e : HTTPException) :
    form_validated request profile_data ->
    fst (get_current_user request jwt_manager w) = Raised e ->
    path_of request jwt_manager w (Raised e) w
| path_target_missing (profile_data : ProfileCreateRequestSchema.t)
    (current_user : UserModel.t) :
    form_validated request profile_data ->
    fst (get_current_user request jwt_manager w) = Returned current_user ->
    select_user (db w) (path_user_id request) = None ->
    path_of request jwt_manager w
      (Raised {| status_code := 401;
                 detail := Message "User not found or not active." |}) w
| path_target_inactive (profile_data : ProfileCreateRequestSchema.t)
    (current_user target : UserModel.t) :
    form_validated request profile_data ->
    fst (get_current_user request jwt_manager w) = Returned current_user ->
    select_user (db w) (path_user_id request) = Some target ->
    UserModel.is_active target = false ->
    path_of request jwt_manager w
      (Raised {| status_code := 401;
                 detail := Message "User not found or not active." |}) w
| path_forbidden (profile_data : ProfileCreateRequestSchema.t)
    (current_user target : UserModel.t) :
    form_validated request profile_data ->
    fst (get_current_user request jwt_manager w) = Returned current_user ->
    select_user (db w) (path_user_id request) = Some target ->
    UserModel.is_active target = true ->
    permitted current_user (path_user_id request) = false ->
    path_of request jwt_manager w
      (Raised {| status_code := 403;
                 detail := Message
                   "You don't have permission to edit this profile." |}) w
| path_already_exists (profile_data : ProfileCreateRequestSchema.t)
    (current_user target : UserModel.t) (existing : UserProfileModel.t) :
    form_validated request profile_data ->
    fst (get_current_user request jwt_manager w) = Returned current_user ->
    select_user (db w) (path_user_id request) = Some target ->
    UserModel.is_active target = true ->
    permitted current_user (path_user_id request) = true ->
    UserModel_profile (db w) target = Some existing ->
    path_of request jwt_manager w
      (Raised {| status_code := 400;
                 detail := Message "User already has a profile." |}) w
| path_upload_failed (profile_data : ProfileCreateRequestSchema.t)
    (current_user target : UserModel.t) :
    checks_pass request jwt_manager w profile_data current_user target ->
    upload_file (s3 w)
      (avatar_key (path_user_id request) (filename (form_avatar request)))
      (read (form_avatar request)) = None ->
    path_of request jwt_manager w
      (Raised {| status_code := 500;
                 detail := Message
                   "Failed to upload avatar. Please try again later." |})
      {| db := db w; s3 := s3 w;
         journal :=
           (journal w
              ++ [BlobUpload
                    (avatar_key (path_user_id request)
                       (filename (form_avatar request)))
                    (read (form_avatar request))])%list |}
| path_created (profile_data : ProfileCreateRequestSchema.t)
    (current_user target : UserModel.t) (s' : S) :
    checks_pass request jwt_manager w profile_data current_user target ->
    upload_file (s3 w)
      (avatar_key (path_user_id request) (filename (form_avatar request)))
      (read (form_avatar request)) = Some s' ->
    path_of request jwt_manager w
      (Returned
         {| ProfileCreateResponseSchema.id := profile_id_seq (db w);
            ProfileCreateResponseSchema.user_id := path_user_id request;
            ProfileCreateResponseSchema.first_name :=
              PyStr.strip (PyStr.lower (form_first_name request));
            ProfileCreateResponseSchema.last_name :=
              PyStr.strip (PyStr.lower (form_last_name request));
            ProfileCreateResponseSchema.gender := form_gender request;
            ProfileCreateResponseSchema.date_of_birth :=
              form_date_of_birth request;
            ProfileCreateResponseSchema.info :=
              PyStr.strip (form_info request);
            ProfileCreateResponseSchema.avatar :=
              get_file_url s'
                (avatar_key (path_user_id request)
                   (filename (form_avatar request))) |})
      {| db := {| users := users (db w);
                  profiles :=
                    (profiles (db w)
                       ++ [stored_row (db w) (path_user_id request)
                             profile_data])%list;
                  profile_id_seq := profile_id_seq (db w) + 1 |};
         s3 := s';
         journal :=
           (journal w
              ++ [BlobUpload
                    (avatar_key (path_user_id request)
                       (filename (form_avatar request)))
                    (read (form_avatar request));
                  RowInsert
                    (stored_row (db w) (path_user_id request)
                       profile_data)])%list |}.

End Vocabulary.

(** ** Vocabulary of the further properties *)

(** [sep in s] *)
Fixpoint str_contains (sep s : string) : bool :=
  match s with
  | EmptyString => String.prefix sep EmptyString
  | String _ s' => String.prefix sep s || str_contains sep s'
  end.

(** [s.partition(sep)[0]]: the text before the first occurrence of
    [sep], all of [s] when there is none. *)
Fixpoint str_before (sep s : string) : string :=
  match s with
  | EmptyString => EmptyString
  | String c s' =>
      if String.prefix sep s then EmptyString else String c (str_before sep s')
  end.

(** Every character of [s] is whitespace; [s] may be empty. *)
Fixpoint all_space (s : string) : bool :=
  match s with
  | EmptyString => true
  | String c s' => PyStr.is_space c && all_space s'
  end.

(** ['_' not in s] *)
Fixpoint no_underscore (s : string) : bool :=
  match s with
  | EmptyString => true
  | String c s' => negb (Ascii.eqb c "_") && no_underscore s'
  end.

(** The account [user_id] has a profile row. *)
Definition has_profile (d : Database) (user_id : Z) : bool :=
  existsb (fun p => UserProfileModel.user_id p =? user_id) (profiles d).

(** No two profile rows belong to the same account. *)
Definition one_profile_per_account (d : Database) : Prop :=
  NoDup (map UserProfileModel.user_id (profiles d)).

(** Case analysis on the hypotheses of a goal. *)
Ltac break_cases :=
  repeat match goal with
    | H : _ \/ _ |- _ => destruct H
    | H : _ /\ _ |- _ => destruct H
    | H : exists _, _ |- _ => destruct H
    | H : Some _ = Some _ |- _ => injection H as H; subst
    | H : Payload _ = Payload _ |- _ => injection H as H; subst
    | H : Some _ = None |- _ => discriminate H
    | H : None = Some _ |- _ => discriminate H
    | H : Returned _ = Raised _ |- _ => discriminate H
    end.

(** * Properties *)

Example lower_Ada : PyStr.lower "  Ada " = "  ada ".
Proof. reflexivity. Qed.

Example strip_ada : PyStr.strip "  ada " = "ada".
Proof. reflexivity. Qed.

Example strip_inner : PyStr.strip "	 a b
" = "a b".
Proof. reflexivity. Qed.

Example strip_blank : PyStr.strip "   " = "".
Proof. reflexivity. Qed.

Example split_bearer : PyStr.split "Bearer abc" "Bearer " = [""; "abc"].
Proof. reflexivity. Qed.

Example split_bearer_twice :
  PyStr.split "Bearer a Bearer b" "Bearer " = [""; "a "; "b"].
Proof. reflexivity. Qed.

Example of_int_2 : PyStr.of_int 2 = "2".
Proof. reflexivity. Qed.

Example of_int_0 : PyStr.of_int 0 = "0".
Proof. reflexivity. Qed.

Example of_int_neg : PyStr.of_int (-15) = "-15".
Proof. reflexivity. Qed.

Example zfill_7 : PyStr.zfill "7" 2 = "07".
Proof. reflexivity. Qed.

Example date_str_early : date_str {| year := 987; month := 6; day := 5 |} = "0987-06-05".
Proof. reflexivity. Qed.

Example date_str_recent :
  date_str {| year := 1995; month := 12; day := 10 |} = "1995-12-10".
Proof. reflexivity. Qed.

(** ** Lemmas on the building blocks *)

Lemma select_user_id (d : Database) (n : Z) (u : UserModel.t) :
  select_user d n = Some u -> UserModel.id u = n.
Proof.
  unfold select_user. intros Hf.
  apply find_some in Hf. destruct Hf as [_ Heq].
  now apply Z.eqb_eq.
Qed.

Lemma length_append (s1 s2 : string) :
  String.length (s1 ++ s2) = (String.length s1 + String.length s2)%nat.
Proof.
  induction s1 as [|c s1 IH]; cbn [append String.length Nat.add];
    [reflexivity | now rewrite IH].
Qed.

Lemma split_from_not_nil (sep : string) (s : string) :
  forall skip cur, PyStr.split_from sep skip cur s <> [].
Proof.
  induction s as [|c s IH]; intros skip cur; cbn [PyStr.split_from].
  - discriminate.
  - destruct skip as [|k]; [|apply IH].
    destruct (String.prefix sep (String c s)); [discriminate|apply IH].
Qed.

(** After [startswith("Bearer ")], [split("Bearer ")[1]] is defined:
    the index is in range. *)
Lemma bearer_token_defined (auth_header : string) :
  PyStr.startswith auth_header "Bearer " = true ->
  exists token, nth_error (PyStr.split auth_header "Bearer ") 1 = Some token.
Proof.
  unfold PyStr.startswith, PyStr.split. intros Hp.
  destruct auth_header as [|c rest]; [discriminate|].
  cbn [PyStr.split_from]. rewrite Hp.
  cbn [nth_error PyStr.rev_onto].
  destruct (PyStr.split_from "Bearer " (Nat.pred (String.length "Bearer "))
              EmptyString rest) as [|token l] eqn:E.
  - exfalso. exact (split_from_not_nil _ _ _ _ E).
  - exists token. reflexivity.
Qed.

(** ** Identity resolution *)

Section Identity.
Context {S J : Type}.
Context `{Validation} `{SqlBackend}.
Context `{S3StorageInterface S} `{JWTAuthManagerInterface J}.

Lemma startswith_truthy (auth_header : string) :
  PyStr.startswith auth_header "Bearer " = true ->
  PyStr.truthy auth_header = true.
Proof. destruct auth_header; [discriminate|reflexivity]. Qed.

(** What [get_current_user] computes, as a function of the request,
    the manager and the account table. *)
Lemma get_current_user_run (request : Request) (jwt_manager : J) (w : World S) :
  get_current_user request jwt_manager w
  = (match authorization request with
     | None =>
         Raised {| status_code := 401;
                   detail := Message "Authorization header is missing" |}
     | Some auth_header =>
         if negb (PyStr.truthy auth_header)
         then Raised {| status_code := 401;
                        detail := Message "Authorization header is missing" |}
         else
           match presented_token request with
           | None =>
               Raised {| status_code := 401;
                         detail := Message
                           "Invalid Authorization header format. Expected 'Bearer <token>'" |}
           | Some token =>
               match decode_access_token jwt_manager token with
               | TokenExpiredError =>
                   Raised {| status_code := 401;
                             detail := Message "Token has expired." |}
               | InvalidTokenError =>
                   Raised {| status_code := 401;
                             detail := Message "Invalid token." |}
               | Payload payload =>
                   if truthy (dict_get payload "user_id")
                   then
                     match active_account (db w) (dict_get payload "user_id") with
                     | Some user => Returned user
                     | None =>
                         Raised {| status_code := 401;
                                   detail := Message
                                     "User not found or not active." |}
                     end
                   else Raised {| status_code := 401;
                                  detail := Message "Invalid token." |}
               end
           end
     end, w).
Proof.
  unfold get_current_user, presented_token, active_account.
  destruct (authorization request) as [auth_header|]; [|reflexivity].
  destruct (PyStr.truthy auth_header); [|reflexivity].
  cbn [negb].
  destruct (PyStr.startswith auth_header "Bearer ") eqn:Hs; [|reflexivity].
  cbn [negb].
  destruct (bearer_token_defined _ Hs) as [token ->].
  destruct (decode_access_token jwt_manager token) as [payload| |];
    [|reflexivity|reflexivity].
  cbn zeta.
  destruct (truthy (dict_get payload "user_id")); [|reflexivity].
  cbn [negb bind Monad_M]. unfold scalar_user.
  destruct (bind_integer (dict_get payload "user_id")) as [n|]; [|reflexivity].
  destruct (select_user (db w) n) as [user|]; [|reflexivity].
  destruct (UserModel.is_active user); reflexivity.
Qed.


(** C5, amended: [get_current_user] leaves the world as it is; it
    raises exactly when the header is absent, or does not start with
    [Bearer ], or the manager reports expiry or another invalidity, or
    the payload has no subject or a falsy one, or no active account
    exists for the subject; and what it raises is always a 401. *)
Theorem get_current_user_fails_exactly
    (request : Request) (jwt_manager : J) (w : World S) :
  snd (get_current_user request jwt_manager w) = w
  /\ ((exists e, fst (get_current_user request jwt_manager w) = Raised e)
      <-> identity_failure subject_falsy request jwt_manager (db w))
  /\ (forall e, fst (get_current_user request jwt_manager w) = Raised e ->
                status_code e = HTTP_401_UNAUTHORIZED).
Proof.
  rewrite get_current_user_run. cbn [fst snd].
  split; [reflexivity|].
  unfold identity_failure, subject_falsy, presented_token.
  destruct (authorization request) as [auth_header|] eqn:Ha.
  2:{ split; [split; [intros _; now left | intros _; eauto]|].
      intros e [= <-]. reflexivity. }
  destruct (PyStr.truthy auth_header) eqn:Ht; cbn [negb].
  2:{ split; [split; [intros _ | intros _; eauto]|].
      - right; left. exists auth_header. split; [reflexivity|].
        destruct auth_header; [reflexivity|discriminate].
      - intros e [= <-]. reflexivity. }
  destruct (PyStr.startswith auth_header "Bearer ") eqn:Hs.
  2:{ split; [split; [intros _ | intros _; eauto]|].
      - right; left. eauto.
      - intros e [= <-]. reflexivity. }
  destruct (bearer_token_defined _ Hs) as [token Htok]. rewrite Htok.
  destruct (decode_access_token jwt_manager token) as [payload| |] eqn:Hd.
  - destruct (truthy (dict_get payload "user_id")) eqn:Hty.
    + destruct (active_account (db w) (dict_get payload "user_id"))
        as [user|] eqn:Hacc.
      * split; [split|].
        -- intros [e He]. discriminate He.
        -- intros Hc. break_cases; congruence.
        -- intros e He. discriminate He.
      * split; [split; [intros _ | intros _; eauto]|].
        -- right; right. exists token. split; [reflexivity|].
           right; right. exists payload. auto.
        -- intros e [= <-]. reflexivity.
    + split; [split; [intros _ | intros _; eauto]|].
      * right; right. exists token. split; [reflexivity|].
        right; right. exists payload. auto.
      * intros e [= <-]. reflexivity.
  - split; [split; [intros _ | intros _; eauto]|].
    + right; right. exists token. auto.
    + intros e [= <-]. reflexivity.
  - split; [split; [intros _ | intros _; eauto]|].
    + right; right. exists token. auto.
    + intros e [= <-]. reflexivity.
Qed.

End Identity.

(** ** The handler *)

Section Handler.
Context {S J : Type}.
Context `{Validation} `{SqlBackend}.
Context `{S3StorageInterface S} `{JWTAuthManagerInterface J}.

Variables (user_id : Z) (profile_data : ProfileCreateRequestSchema.t).
Variables (current_user : UserModel.t) (w : World S).

Lemma create_profile_target_missing :
  select_user (db w) user_id = None ->
  create_profile user_id profile_data current_user w = (Raised {| status_code := 401;
               detail := Message "User not found or not active." |}, w).
Proof.
  intros Hsel. unfold create_profile, scalar_user.
  cbn [bind Monad_M bind_integer]. rewrite Hsel. reflexivity.
Qed.

Lemma create_profile_target_inactive (target : UserModel.t) :
  select_user (db w) user_id = Some target ->
  UserModel.is_active target = false ->
  create_profile user_id profile_data current_user w = (Raised {| status_code := 401;
               detail := Message "User not found or not active." |}, w).
Proof.
  intros Hsel Hact. unfold create_profile, scalar_user.
  cbn [bind Monad_M bind_integer]. rewrite Hsel, Hact. reflexivity.
Qed.

Lemma create_profile_forbidden (target : UserModel.t) :
  select_user (db w) user_id = Some target ->
  UserModel.is_active target = true ->
  permitted current_user user_id = false ->
  create_profile user_id profile_data current_user w
  = (Raised {| status_code := 403;
               detail := Message
                 "You don't have permission to edit this profile." |}, w).
Proof.
  intros Hsel Hact Hperm. unfold create_profile, scalar_user.
  cbn [bind Monad_M bind_integer]. rewrite Hsel, Hact. cbn [negb].
  unfold permitted in Hperm. apply orb_false_elim in Hperm.
  destruct Hperm as [-> ->]. reflexivity.
Qed.

Lemma create_profile_already_exists (target : UserModel.t)
    (existing : UserProfileModel.t) :
  select_user (db w) user_id = Some target ->
  UserModel.is_active target = true ->
  permitted current_user user_id = true ->
  UserModel_profile (db w) target = Some existing ->
  create_profile user_id profile_data current_user w
  = (Raised {| status_code := 400;
               detail := Message "User already has a profile." |}, w).
Proof.
  intros Hsel Hact Hperm Hprof. unfold create_profile, scalar_user.
  cbn [bind Monad_M bind_integer]. rewrite Hsel, Hact. cbn [negb].
  unfold permitted in Hperm.
  rewrite <- negb_orb, Hperm. cbn [negb].
  unfold loaded_profile. rewrite Hprof. reflexivity.
Qed.

Lemma create_profile_upload_failed (target : UserModel.t) :
  select_user (db w) user_id = Some target ->
  UserModel.is_active target = true ->
  permitted current_user user_id = true ->
  UserModel_profile (db w) target = None ->
  upload_file (s3 w)
    (avatar_key user_id
       (filename (ProfileCreateRequestSchema.avatar profile_data)))
    (read (ProfileCreateRequestSchema.avatar profile_data)) = None ->
  create_profile user_id profile_data current_user w
  = (Raised {| status_code := 500;
               detail := Message
                 "Failed to upload avatar. Please try again later." |},
     {| db := db w; s3 := s3 w;
        journal :=
          (journal w
             ++ [BlobUpload
                   (avatar_key user_id
                      (filename
                         (ProfileCreateRequestSchema.avatar profile_data)))
                   (read (ProfileCreateRequestSchema.avatar profile_data))])%list
     |}).
Proof.
  intros Hsel Hact Hperm Hprof Hup. unfold create_profile, scalar_user.
  cbn [bind Monad_M bind_integer]. rewrite Hsel, Hact. cbn [negb].
  unfold permitted in Hperm.
  rewrite <- negb_orb, Hperm. cbn [negb].
  unfold loaded_profile. rewrite Hprof.
  unfold try_upload_file. rewrite (select_user_id _ _ _ Hsel).
  unfold avatar_key in *. rewrite Hup. reflexivity.
Qed.

Lemma create_profile_created (target : UserModel.t) (s' : S) :
  select_user (db w) user_id = Some target ->
  UserModel.is_active target = true ->
  permitted current_user user_id = true ->
  UserModel_profile (db w) target = None ->
  upload_file (s3 w)
    (avatar_key user_id
       (filename (ProfileCreateRequestSchema.avatar profile_data)))
    (read (ProfileCreateRequestSchema.avatar profile_data)) = Some s' ->
  create_profile user_id profile_data current_user w
  = (Returned
       {| ProfileCreateResponseSchema.id := profile_id_seq (db w);
          ProfileCreateResponseSchema.user_id := user_id;
          ProfileCreateResponseSchema.first_name :=
            ProfileCreateRequestSchema.first_name profile_data;
          ProfileCreateResponseSchema.last_name :=
            ProfileCreateRequestSchema.last_name profile_data;
          ProfileCreateResponseSchema.gender :=
            ProfileCreateRequestSchema.gender profile_data;
          ProfileCreateResponseSchema.date_of_birth :=
            ProfileCreateRequestSchema.date_of_birth profile_data;
          ProfileCreateResponseSchema.info :=
            ProfileCreateRequestSchema.info profile_data;
          ProfileCreateResponseSchema.avatar :=
            get_file_url s'
              (avatar_key user_id
                 (filename (ProfileCreateRequestSchema.avatar profile_data)))
       |},
     {| db := {| users := users (db w);
                 profiles :=
                   (profiles (db w)
                      ++ [stored_row (db w) user_id profile_data])%list;
                 profile_id_seq := profile_id_seq (db w) + 1 |};
        s3 := s';
        journal :=
          (journal w
             ++ [BlobUpload
                   (avatar_key user_id
                      (filename
                         (ProfileCreateRequestSchema.avatar profile_data)))
                   (read (ProfileCreateRequestSchema.avatar profile_data));
                 RowInsert (stored_row (db w) user_id profile_data)])%list
     |}).
Proof.
  intros Hsel Hact Hperm Hprof Hup. unfold create_profile, scalar_user.
  cbn [bind Monad_M bind_integer]. rewrite Hsel, Hact. cbn [negb].
  unfold permitted in Hperm.
  rewrite <- negb_orb, Hperm. cbn [negb].
  unfold loaded_profile. rewrite Hprof.
  unfold try_upload_file. rewrite (select_user_id _ _ _ Hsel).
  unfold stored_row, avatar_key in *. rewrite Hup.
  unfold add_commit, insert_profile, file_url.
  cbn [bind Monad_M ret db s3 journal fst snd UserProfileModel.id
       UserProfileModel.user_id UserProfileModel.first_name
       UserProfileModel.last_name UserProfileModel.gender
       UserProfileModel.date_of_birth UserProfileModel.info
       UserProfileModel.avatar profile_id_seq users profiles].
  rewrite <- app_assoc. reflexivity.
Qed.

End Handler.

(** ** The schema *)

Section Schema.
Context `{Validation}.

Import ProfileCreateRequestSchema.

Lemma as_form_returns (a b c : string) (d : date) (e : string) (f : UploadFile)
    (profile_data : ProfileCreateRequestSchema.t) :
  as_form a b c d e f = Returned profile_data ->
  profile_data = {| first_name := PyStr.strip (PyStr.lower a);
                    last_name := PyStr.strip (PyStr.lower b);
                    gender := c;
                    date_of_birth := d;
                    info := PyStr.strip e;
                    avatar := f |}.
Proof.
  unfold as_form, construct, validate_first_name, validate_last_name,
    validate_gender_field, validate_age, validate_info_field, validate_avatar.
  cbn [bind ret Monad_outcome].
  destruct (validate_name a); [|discriminate].
  destruct (validate_name b); [|discriminate].
  destruct (validate_gender c); [|discriminate].
  destruct (validate_birth_date d); [|discriminate].
  destruct (PyStr.truthy (PyStr.strip e)); [|discriminate]. cbn [negb].
  destruct (validate_image f); [|discriminate].
  now intros [= <-].
Qed.

Lemma falsy_str (s : string) : PyStr.truthy s = false <-> s = "".
Proof. destruct s; split; intros; (reflexivity || discriminate). Qed.

Lemma as_form_raises (request : Request) (e : HTTPException) :
  as_form (form_first_name request) (form_last_name request)
    (form_gender request) (form_date_of_birth request)
    (form_info request) (form_avatar request) = Raised e ->
  exists entry,
    violation request entry
    /\ e = {| status_code := 422; detail := Entries [entry] |}.
Proof.
  unfold as_form, construct, validate_first_name, validate_last_name,
    validate_gender_field, validate_age, validate_info_field, validate_avatar,
    violation.
  cbn [bind ret Monad_outcome].
  destruct (validate_name (form_first_name request)) as [|m1] eqn:E1.
  2:{ intros [= <-]. eexists; split; [left; eauto|reflexivity]. }
  destruct (validate_name (form_last_name request)) as [|m2] eqn:E2.
  2:{ intros [= <-]. eexists; split; [right; left; eauto|reflexivity]. }
  destruct (validate_gender (form_gender request)) as [|m3] eqn:E3.
  2:{ intros [= <-]. eexists; split; [do 2 right; left; eauto|reflexivity]. }
  destruct (validate_birth_date (form_date_of_birth request)) as [|m4] eqn:E4.
  2:{ intros [= <-]. eexists; split; [do 3 right; left; eauto|reflexivity]. }
  destruct (PyStr.truthy (PyStr.strip (form_info request))) eqn:E5; cbn [negb].
  2:{ intros [= <-]. apply falsy_str in E5.
      eexists; split; [do 4 right; left; eauto|reflexivity]. }
  destruct (validate_image (form_avatar request)) as [|m6] eqn:E6.
  2:{ intros [= <-]. eexists; split; [do 5 right; eauto|reflexivity]. }
  discriminate.
Qed.

Lemma violation_raises (request : Request) (entry : ErrorEntry) :
  violation request entry ->
  exists e,
    as_form (form_first_name request) (form_last_name request)
      (form_gender request) (form_date_of_birth request)
      (form_info request) (form_avatar request) = Raised e.
Proof.
  intros Hv.
  destruct (as_form (form_first_name request) (form_last_name request)
              (form_gender request) (form_date_of_birth request)
              (form_info request) (form_avatar request))
    as [profile_data|e] eqn:Hf; [exfalso|eauto].
  revert Hf.
  unfold as_form, construct, validate_first_name, validate_last_name,
    validate_gender_field, validate_age, validate_info_field, validate_avatar.
  cbn [bind ret Monad_outcome].
  destruct (validate_name (form_first_name request)) eqn:E1; [|discriminate].
  destruct (validate_name (form_last_name request)) eqn:E2; [|discriminate].
  destruct (validate_gender (form_gender request)) eqn:E3; [|discriminate].
  destruct (validate_birth_date (form_date_of_birth request)) eqn:E4;
    [|discriminate].
  destruct (PyStr.truthy (PyStr.strip (form_info request))) eqn:E5;
    [|discriminate].
  destruct (validate_image (form_avatar request)) eqn:E6; [|discriminate].
  intros _. unfold violation in Hv.
  destruct Hv as [[m [Hm _]]|[[m [Hm _]]|[[m [Hm _]]|[[m [Hm _]]|[[Hm _]|[m [Hm _]]]]]]];
    try congruence.
  rewrite Hm in E5. discriminate.
Qed.

End Schema.

(** ** The route *)

Section Endpoint.
Context {S J : Type}.
Context `{Validation} `{SqlBackend}.
Context `{S3StorageInterface S} `{JWTAuthManagerInterface J}.

Variables (request : Request) (jwt_manager : J) (w : World S).

Lemma get_current_user_world :
  snd (get_current_user request jwt_manager w) = w.
Proof. rewrite get_current_user_run. reflexivity. Qed.

Lemma get_current_user_status (e : HTTPException) :
  fst (get_current_user request jwt_manager w) = Raised e ->
  status_code e = 401.
Proof.
  rewrite get_current_user_run. cbn [fst].
  repeat match goal with
         | |- context [match ?x with _ => _ end] => destruct x
         end;
    intros [= <-]; reflexivity.
Qed.

Lemma endpoint_invalid_form (e : HTTPException) :
  ProfileCreateRequestSchema.as_form
    (form_first_name request) (form_last_name request)
    (form_gender request) (form_date_of_birth request)
    (form_info request) (form_avatar request) = Raised e ->
  endpoint request jwt_manager w = (Raised e, w).
Proof.
  intros Hf. unfold endpoint, lift. cbn [bind Monad_M]. rewrite Hf. reflexivity.
Qed.

Lemma endpoint_unauthenticated
    (profile_data : ProfileCreateRequestSchema.t) (e : HTTPException) :
  form_validated request profile_data ->
  fst (get_current_user request jwt_manager w) = Raised e ->
  endpoint request jwt_manager w = (Raised e, w).
Proof.
  intros Hf Hu. unfold endpoint, lift. cbn [bind Monad_M].
  rewrite Hf.
  destruct (get_current_user request jwt_manager w) as [o w1] eqn:Hg.
  pose proof get_current_user_world as Hw. rewrite Hg in Hw.
  cbn [fst snd] in *. subst. reflexivity.
Qed.

Lemma endpoint_handler
    (profile_data : ProfileCreateRequestSchema.t) (current_user : UserModel.t) :
  form_validated request profile_data ->
  fst (get_current_user request jwt_manager w) = Returned current_user ->
  endpoint request jwt_manager w
  = create_profile (path_user_id request) profile_data current_user w.
Proof.
  intros Hf Hu. unfold endpoint, lift. cbn [bind Monad_M].
  rewrite Hf.
  destruct (get_current_user request jwt_manager w) as [o w1] eqn:Hg.
  pose proof get_current_user_world as Hw. rewrite Hg in Hw.
  cbn [fst snd] in *. subst. reflexivity.
Qed.

End Endpoint.

(** ** Every request follows one path *)

Section Paths.
Context {S J : Type}.
Context `{Validation} `{SqlBackend}.
Context `{S3StorageInterface S} `{JWTAuthManagerInterface J}.

Lemma endpoint_paths (request : Request) (jwt_manager : J) (w : World S) :
  path_of request jwt_manager w
    (fst (endpoint request jwt_manager w))
    (snd (endpoint request jwt_manager w)).
Proof.
  destruct (ProfileCreateRequestSchema.as_form
              (form_first_name request) (form_last_name request)
              (form_gender request) (form_date_of_birth request)
              (form_info request) (form_avatar request))
    as [profile_data|e] eqn:Hform.
  2:{ rewrite (endpoint_invalid_form _ _ _ _ Hform). now apply path_invalid_form. }
  pose proof (as_form_returns _ _ _ _ _ _ _ Hform) as Hpd.
  destruct (fst (get_current_user request jwt_manager w))
    as [current_user|e] eqn:Hgcu.
  2:{ rewrite (endpoint_unauthenticated _ _ _ _ _ Hform Hgcu).
      now apply path_unauthenticated with profile_data. }
  rewrite (endpoint_handler _ _ _ _ _ Hform Hgcu).
  destruct (select_user (db w) (path_user_id request)) as [target|] eqn:Hsel.
  2:{ rewrite create_profile_target_missing by assumption.
      now apply path_target_missing with profile_data current_user. }
  destruct (UserModel.is_active target) eqn:Hact.
  2:{ rewrite create_profile_target_inactive with (target := target)
        by assumption.
      now apply path_target_inactive with profile_data current_user target. }
  destruct (permitted current_user (path_user_id request)) eqn:Hperm.
  2:{ rewrite create_profile_forbidden with (target := target) by assumption.
      now apply path_forbidden with profile_data current_user target. }
  destruct (UserModel_profile (db w) target) as [existing|] eqn:Hprof.
  { rewrite create_profile_already_exists
      with (target := target) (existing := existing) by assumption.
    now apply path_already_exists
      with profile_data current_user target existing. }
  assert (Hav : ProfileCreateRequestSchema.avatar profile_data
                = form_avatar request) by (rewrite Hpd; reflexivity).
  assert (Hchecks : checks_pass request jwt_manager w
                      profile_data current_user target)
    by (unfold checks_pass; auto 10).
  destruct (upload_file (s3 w)
              (avatar_key (path_user_id request) (filename (form_avatar request)))
              (read (form_avatar request))) as [s'|] eqn:Hup.
  - rewrite create_profile_created with (target := target) (s' := s')
      by (rewrite ?Hav; assumption).
    rewrite Hav. cbn [fst snd].
    replace (ProfileCreateRequestSchema.first_name profile_data)
      with (PyStr.strip (PyStr.lower (form_first_name request)))
      by (rewrite Hpd; reflexivity).
    replace (ProfileCreateRequestSchema.last_name profile_data)
      with (PyStr.strip (PyStr.lower (form_last_name request)))
      by (rewrite Hpd; reflexivity).
    replace (ProfileCreateRequestSchema.gender profile_data)
      with (form_gender request) by (rewrite Hpd; reflexivity).
    replace (ProfileCreateRequestSchema.date_of_birth profile_data)
      with (form_date_of_birth request) by (rewrite Hpd; reflexivity).
    replace (ProfileCreateRequestSchema.info profile_data)
      with (PyStr.strip (form_info request)) by (rewrite Hpd; reflexivity).
    now apply path_created with current_user target.
  - rewrite create_profile_upload_failed with (target := target)
      by (rewrite ?Hav; assumption).
    rewrite Hav. cbn [fst snd].
    now apply path_upload_failed with profile_data current_user target.
Qed.

End Paths.

(** ** The claims about the route *)

Section Claims.
Context {S J : Type}.
Context `{Validation} `{SqlBackend}.
Context `{S3StorageInterface S} `{JWTAuthManagerInterface J}.

Lemma post_profile_eq (request : Request) (jwt_manager : J) (w : World S) :
  post_profile request jwt_manager w
  = (respond (fst (endpoint request jwt_manager w)),
     snd (endpoint request jwt_manager w)).
Proof.
  unfold post_profile. destruct (endpoint request jwt_manager w). reflexivity.
Qed.

(** C1: a request either leaves the world exactly as it found it and is
    not answered 201, or validation, identity resolution, the target
    check, the authorization check and the uniqueness check have all
    succeeded and the only writes are the avatar upload, followed when
    it succeeds by the insert of one profile row; when one of the
    checks fails the world is unchanged. *)
Theorem writes_only_after_all_checks
    (request : Request) (jwt_manager : J) (w : World S) :
  let resp := fst (post_profile request jwt_manager w) in
  let w' := snd (post_profile request jwt_manager w) in
  let key := avatar_key (path_user_id request) (filename (form_avatar request)) in
  let data := read (form_avatar request) in
  ((w' = w /\ status resp <> HTTP_201_CREATED)
   \/ (exists profile_data current_user target,
         checks_pass request jwt_manager w profile_data current_user target
         /\ ((status resp = HTTP_500_INTERNAL_SERVER_ERROR
              /\ db w' = db w
              /\ journal w' = (journal w ++ [BlobUpload key data])%list)
             \/ (exists row,
                   status resp = HTTP_201_CREATED
                   /\ profiles (db w') = (profiles (db w) ++ [row])%list
                   /\ journal w'
                      = (journal w ++ [BlobUpload key data; RowInsert row])%list))))
  /\ ((forall profile_data current_user target,
          ~ checks_pass request jwt_manager w profile_data current_user target) ->
      w' = w).
Proof.
  rewrite post_profile_eq. cbn [fst snd].
  generalize (endpoint_paths request jwt_manager w).
  generalize (fst (endpoint request jwt_manager w))
             (snd (endpoint request jwt_manager w)).
  intros o w' P.
  destruct P as [e Hf | pd e Hf Hu | pd cu Hf Hu Hs | pd cu t Hf Hu Hs Ha
                | pd cu t Hf Hu Hs Ha Hp | pd cu t p Hf Hu Hs Ha Hp Hx
                | pd cu t Hc Hup | pd cu t s' Hc Hup ];
    cbn [respond status].
  - split; [left; split; [reflexivity|] | auto].
    destruct (as_form_raises _ _ Hf) as [entry [_ ->]]. discriminate.
  - split; [left; split; [reflexivity|] | auto].
    rewrite (get_current_user_status _ _ _ _ Hu). discriminate.
  - split; [left; split; [reflexivity|discriminate] | auto].
  - split; [left; split; [reflexivity|discriminate] | auto].
  - split; [left; split; [reflexivity|discriminate] | auto].
  - split; [left; split; [reflexivity|discriminate] | auto].
  - split.
    + right. exists pd, cu, t. split; [assumption|]. left. auto.
    + intros Hn. destruct (Hn _ _ _ Hc).
  - split.
    + right. exists pd, cu, t. split; [assumption|]. right.
      eexists. split; [reflexivity|]. split; reflexivity.
    + intros Hn. destruct (Hn _ _ _ Hc).
Qed.


(** C2: once the form is valid and the caller is resolved, the handler
    tests the target first (missing or inactive: 401), then the
    permission (caller neither the target nor an admin: 403), then the
    existing profile (400); so a caller who is neither the target nor
    an admin gets 403, not 400, even when the target has a profile. *)
Theorem authorization_checks_in_order
    (request : Request) (jwt_manager : J) (w : World S)
    (profile_data : ProfileCreateRequestSchema.t) (current_user : UserModel.t) :
  form_validated request profile_data ->
  fst (get_current_user request jwt_manager w) = Returned current_user ->
  let resp := fst (post_profile request jwt_manager w) in
  let user_id := path_user_id request in
  match select_user (db w) user_id with
  | None => status resp = HTTP_401_UNAUTHORIZED
  | Some user =>
      if negb (UserModel.is_active user)
      then status resp = HTTP_401_UNAUTHORIZED
      else if negb (user_id =? UserModel.id current_user)
              && negb (UserModel.has_group current_user ADMIN)
      then status resp = HTTP_403_FORBIDDEN
      else
        match UserModel_profile (db w) user with
        | Some _ => status resp = HTTP_400_BAD_REQUEST
        | None => status resp = HTTP_500_INTERNAL_SERVER_ERROR
                  \/ status resp = HTTP_201_CREATED
        end
  end
  /\ (forall user existing,
        select_user (db w) user_id = Some user ->
        UserModel.is_active user = true ->
        user_id <> UserModel.id current_user ->
        UserModel.has_group current_user ADMIN = false ->
        UserModel_profile (db w) user = Some existing ->
        status resp = HTTP_403_FORBIDDEN
        /\ status resp <> HTTP_400_BAD_REQUEST).
Proof.
  intros Hf Hu resp user_id. subst resp user_id.
  rewrite post_profile_eq. cbn [fst].
  rewrite (endpoint_handler _ _ _ _ _ Hf Hu).
  assert (Hperm : permitted current_user (path_user_id request)
                  = negb (negb (path_user_id request =? UserModel.id current_user)
                          && negb (UserModel.has_group current_user ADMIN))).
  { unfold permitted. rewrite negb_andb, !negb_involutive. reflexivity. }
  split.
  - destruct (select_user (db w) (path_user_id request)) as [user|] eqn:Hs.
    2:{ now rewrite create_profile_target_missing. }
    destruct (UserModel.is_active user) eqn:Ha; cbn [negb].
    2:{ now rewrite create_profile_target_inactive with (target := user). }
    destruct (negb (path_user_id request =? UserModel.id current_user)
              && negb (UserModel.has_group current_user ADMIN)) eqn:Hp;
      cbn [negb] in Hperm.
    { now rewrite create_profile_forbidden with (target := user). }
    destruct (UserModel_profile (db w) user) as [existing|] eqn:Hx.
    { now rewrite create_profile_already_exists
        with (target := user) (existing := existing). }
    destruct (upload_file (s3 w)
                (avatar_key (path_user_id request)
                   (filename (ProfileCreateRequestSchema.avatar profile_data)))
                (read (ProfileCreateRequestSchema.avatar profile_data)))
      as [s'|] eqn:Hup.
    + right. now rewrite create_profile_created with (target := user) (s' := s').
    + left. now rewrite create_profile_upload_failed with (target := user).
  - intros user existing Hs Ha Hne Hg _.
    rewrite create_profile_forbidden with (target := user); try assumption.
    + split; [reflexivity|discriminate].
    + unfold permitted. rewrite Hg, orb_false_r. now apply Z.eqb_neq.
Qed.

(** C3: when every check has passed and the blob store refuses the
    avatar, the request is answered 500 with the fixed text below, the
    relational store is left as it was and the target account still has
    no profile row; the upload is the only call made. *)
Theorem upload_failure_is_500
    (request : Request) (jwt_manager : J) (w : World S)
    (profile_data : ProfileCreateRequestSchema.t)
    (current_user target : UserModel.t) :
  checks_pass request jwt_manager w profile_data current_user target ->
  upload_file (s3 w)
    (avatar_key (path_user_id request) (filename (form_avatar request)))
    (read (form_avatar request)) = None ->
  let resp := fst (post_profile request jwt_manager w) in
  let w' := snd (post_profile request jwt_manager w) in
  resp = {| status := HTTP_500_INTERNAL_SERVER_ERROR;
            content := DetailJSON
              (Message "Failed to upload avatar. Please try again later.") |}
  /\ db w' = db w
  /\ UserModel_profile (db w') target = None
  /\ journal w'
     = (journal w
          ++ [BlobUpload
                (avatar_key (path_user_id request)
                   (filename (form_avatar request)))
                (read (form_avatar request))])%list.
Proof.
  intros (Hf & Hu & Hs & Ha & Hp & Hx) Hup resp w'. subst resp w'.
  rewrite post_profile_eq. cbn [fst snd].
  rewrite (endpoint_handler _ _ _ _ _ Hf Hu).
  assert (Hav : ProfileCreateRequestSchema.avatar profile_data
                = form_avatar request)
    by (rewrite (as_form_returns _ _ _ _ _ _ _ Hf); reflexivity).
  rewrite create_profile_upload_failed with (target := target)
    by (rewrite ?Hav; assumption).
  cbn [fst snd respond db journal status_code detail]. rewrite Hav. auto.
Qed.

(** C4, amended: for an authenticated caller who is neither the target
    nor an admin, a request for an existing, active target whose form
    passes validation is answered 403 and changes nothing; and a caller
    who is the target or an admin is never answered 403. *)
Theorem forbidden_when_not_permitted
    (request : Request) (jwt_manager : J) (w : World S)
    (current_user : UserModel.t) :
  fst (get_current_user request jwt_manager w) = Returned current_user ->
  let resp := fst (post_profile request jwt_manager w) in
  let w' := snd (post_profile request jwt_manager w) in
  (path_user_id request <> UserModel.id current_user
   /\ UserModel.has_group current_user ADMIN = false ->
   (exists target, select_user (db w) (path_user_id request) = Some target
                   /\ UserModel.is_active target = true) ->
   (exists profile_data, form_validated request profile_data) ->
   resp = {| status := HTTP_403_FORBIDDEN;
             content := DetailJSON
               (Message "You don't have permission to edit this profile.") |}
   /\ w' = w)
  /\ (path_user_id request = UserModel.id current_user
      \/ UserModel.has_group current_user ADMIN = true ->
      status resp <> HTTP_403_FORBIDDEN).
Proof.
  intros Hu resp w'. subst resp w'.
  rewrite post_profile_eq. cbn [fst snd]. split.
  - intros [Hne Hg] [target [Hs Ha]] [profile_data Hf].
    rewrite (endpoint_handler _ _ _ _ _ Hf Hu).
    rewrite create_profile_forbidden with (target := target); try assumption.
    + split; reflexivity.
    + unfold permitted. rewrite Hg, orb_false_r. now apply Z.eqb_neq.
  - intros Hok.
    assert (Hperm : permitted current_user (path_user_id request) = true).
    { unfold permitted. destruct Hok as [-> | ->].
      - now rewrite Z.eqb_refl.
      - apply orb_true_r. }
    generalize (endpoint_paths request jwt_manager w).
    generalize (fst (endpoint request jwt_manager w))
               (snd (endpoint request jwt_manager w)).
    intros o w' P.
    destruct P as [e Hf | pd e Hf Hu' | pd cu Hf Hu' Hs | pd cu t Hf Hu' Hs Ha
                  | pd cu t Hf Hu' Hs Ha Hp | pd cu t p Hf Hu' Hs Ha Hp Hx
                  | pd cu t Hc Hup | pd cu t s' Hc Hup ];
      cbn [respond status status_code]; try discriminate.
    + destruct (as_form_raises _ _ Hf) as [entry [_ ->]]. discriminate.
    + rewrite (get_current_user_status _ _ _ _ Hu'). discriminate.
    + rewrite Hu in Hu'. injection Hu' as <-. congruence.
Qed.


(** What an accepted request has done. *)
Lemma endpoint_returned (request : Request) (jwt_manager : J) (w : World S)
    (body : ProfileCreateResponseSchema.t) :
  fst (endpoint request jwt_manager w) = Returned body ->
  exists profile_data current_user target s',
    checks_pass request jwt_manager w profile_data current_user target
    /\ upload_file (s3 w)
         (avatar_key (path_user_id request) (filename (form_avatar request)))
         (read (form_avatar request)) = Some s'
    /\ body
       = {| ProfileCreateResponseSchema.id := profile_id_seq (db w);
            ProfileCreateResponseSchema.user_id := path_user_id request;
            ProfileCreateResponseSchema.first_name :=
              PyStr.strip (PyStr.lower (form_first_name request));
            ProfileCreateResponseSchema.last_name :=
              PyStr.strip (PyStr.lower (form_last_name request));
            ProfileCreateResponseSchema.gender := form_gender request;
            ProfileCreateResponseSchema.date_of_birth :=
              form_date_of_birth request;
            ProfileCreateResponseSchema.info :=
              PyStr.strip (form_info request);
            ProfileCreateResponseSchema.avatar :=
              get_file_url s'
                (avatar_key (path_user_id request)
                   (filename (form_avatar request))) |}
    /\ db (snd (endpoint request jwt_manager w))
       = {| users := users (db w);
            profiles :=
              (profiles (db w)
                 ++ [stored_row (db w) (path_user_id request) profile_data])%list;
            profile_id_seq := profile_id_seq (db w) + 1 |}
    /\ s3 (snd (endpoint request jwt_manager w)) = s'
    /\ journal (snd (endpoint request jwt_manager w))
       = (journal w
            ++ [BlobUpload
                  (avatar_key (path_user_id request)
                     (filename (form_avatar request)))
                  (read (form_avatar request));
                RowInsert
                  (stored_row (db w) (path_user_id request) profile_data)])%list.
Proof.
  generalize (endpoint_paths request jwt_manager w).
  generalize (fst (endpoint request jwt_manager w))
             (snd (endpoint request jwt_manager w)).
  intros o w' P. destruct P; try discriminate.
  intros [= <-]. exists profile_data, current_user, target, s'.
  cbn [db s3 journal]. auto 10.
Qed.

(** The fields of the stored row, in terms of the submitted form. *)
Lemma stored_row_fields (request : Request) (d : Database)
    (profile_data : ProfileCreateRequestSchema.t) :
  form_validated request profile_data ->
  stored_row d (path_user_id request) profile_data
  = {| UserProfileModel.id := profile_id_seq d;
       UserProfileModel.user_id := path_user_id request;
       UserProfileModel.first_name :=
         PyStr.strip (PyStr.lower (form_first_name request));
       UserProfileModel.last_name :=
         PyStr.strip (PyStr.lower (form_last_name request));
       UserProfileModel.gender := form_gender request;
       UserProfileModel.date_of_birth := form_date_of_birth request;
       UserProfileModel.info := PyStr.strip (form_info request);
       UserProfileModel.avatar :=
         avatar_key (path_user_id request) (filename (form_avatar request)) |}.
Proof.
  intros Hf. unfold stored_row.
  rewrite (as_form_returns _ _ _ _ _ _ _ Hf). reflexivity.
Qed.

(** C6: for an accepted request, the first and last name stored and
    returned are the submitted ones lower-cased then trimmed, and the
    info stored and returned is the submitted one trimmed; a first name
    submitted as two blanks, Ada and a blank is stored and returned as
    ada. *)
Theorem names_and_info_are_normalized
    (request : Request) (jwt_manager : J) (w : World S)
    (body : ProfileCreateResponseSchema.t) :
  fst (endpoint request jwt_manager w) = Returned body ->
  let w' := snd (endpoint request jwt_manager w) in
  exists row,
    profiles (db w') = (profiles (db w) ++ [row])%list
    /\ UserProfileModel.first_name row
       = PyStr.strip (PyStr.lower (form_first_name request))
    /\ UserProfileModel.last_name row
       = PyStr.strip (PyStr.lower (form_last_name request))
    /\ UserProfileModel.info row = PyStr.strip (form_info request)
    /\ ProfileCreateResponseSchema.first_name body
       = UserProfileModel.first_name row
    /\ ProfileCreateResponseSchema.last_name body
       = UserProfileModel.last_name row
    /\ ProfileCreateResponseSchema.info body = UserProfileModel.info row
    /\ (form_first_name request = "  Ada " ->
        UserProfileModel.first_name row = "ada"
        /\ ProfileCreateResponseSchema.first_name body = "ada").
Proof.
  intros Hret w'. subst w'.
  destruct (endpoint_returned _ _ _ _ Hret)
    as (pd & cu & t & s' & Hc & _ & -> & Hdb & _ & _).
  destruct Hc as (Hf & _).
  rewrite Hdb. cbn [profiles]. eexists. split; [reflexivity|].
  rewrite (stored_row_fields _ _ _ Hf).
  cbn [UserProfileModel.first_name UserProfileModel.last_name
       UserProfileModel.info ProfileCreateResponseSchema.first_name
       ProfileCreateResponseSchema.last_name ProfileCreateResponseSchema.info].
  repeat (split; [reflexivity|]).
  intros ->. split; reflexivity.
Qed.

(** C7: for an accepted request, the storage key in the stored row (and
    the key of the upload) is avatars/, the identifier of the target
    account, an underscore and the name of the uploaded file; any other
    accepted request with the same target and file name stores the same
    key. *)
Theorem stored_avatar_key
    (request : Request) (jwt_manager : J) (w : World S)
    (body : ProfileCreateResponseSchema.t) :
  fst (endpoint request jwt_manager w) = Returned body ->
  let w' := snd (endpoint request jwt_manager w) in
  exists row target data,
    profiles (db w') = (profiles (db w) ++ [row])%list
    /\ select_user (db w) (path_user_id request) = Some target
    /\ UserProfileModel.user_id row = UserModel.id target
    /\ UserProfileModel.avatar row
       = "avatars/" ++ PyStr.of_int (UserModel.id target) ++ "_"
         ++ filename (form_avatar request)
    /\ journal w'
       = (journal w
            ++ [BlobUpload (UserProfileModel.avatar row) data; RowInsert row])%list
    /\ (forall request2 jwt_manager2 w2 body2,
          fst (endpoint request2 jwt_manager2 w2) = Returned body2 ->
          path_user_id request2 = path_user_id request ->
          filename (form_avatar request2) = filename (form_avatar request) ->
          exists row2,
            profiles (db (snd (endpoint request2 jwt_manager2 w2)))
            = (profiles (db w2) ++ [row2])%list
            /\ UserProfileModel.avatar row2 = UserProfileModel.avatar row).
Proof.
  intros Hret w'. subst w'.
  destruct (endpoint_returned _ _ _ _ Hret)
    as (pd & cu & t & s' & Hc & _ & _ & Hdb & _ & Hj).
  destruct Hc as (Hf & _ & Hs & _).
  rewrite Hdb, Hj. cbn [profiles].
  rewrite (stored_row_fields _ _ _ Hf).
  eexists. exists t. eexists. split; [reflexivity|].
  cbn [UserProfileModel.avatar UserProfileModel.user_id].
  rewrite (select_user_id _ _ _ Hs).
  split; [exact Hs|].
  repeat (split; [reflexivity|]).
  intros request2 jwt_manager2 w2 body2 Hret2 Hid Hname.
  destruct (endpoint_returned _ _ _ _ Hret2)
    as (pd2 & cu2 & t2 & s2 & Hc2 & _ & _ & Hdb2 & _ & _).
  destruct Hc2 as (Hf2 & _).
  rewrite Hdb2. cbn [profiles]. eexists. split; [reflexivity|].
  rewrite (stored_row_fields _ _ _ Hf2).
  cbn [UserProfileModel.avatar]. now rewrite Hid, Hname.
Qed.

(** C8: an accepted request is answered 201 with the eight fields id,
    user_id, first_name, last_name, gender, date_of_birth, info and
    avatar: the identifier of the new row, the target account, the
    normalized names and info, the gender and date as submitted, and the
    URL the blob store resolves the stored key to, which is not the key
    whenever the store never resolves a key to itself. *)
Theorem created_response
    (request : Request) (jwt_manager : J) (w : World S)
    (body : ProfileCreateResponseSchema.t) :
  fst (endpoint request jwt_manager w) = Returned body ->
  let resp := fst (post_profile request jwt_manager w) in
  let w' := snd (post_profile request jwt_manager w) in
  resp = {| status := HTTP_201_CREATED; content := ProfileJSON body |}
  /\ exists row,
      profiles (db w') = (profiles (db w) ++ [row])%list
      /\ body
         = {| ProfileCreateResponseSchema.id := UserProfileModel.id row;
              ProfileCreateResponseSchema.user_id := path_user_id request;
              ProfileCreateResponseSchema.first_name :=
                PyStr.strip (PyStr.lower (form_first_name request));
              ProfileCreateResponseSchema.last_name :=
                PyStr.strip (PyStr.lower (form_last_name request));
              ProfileCreateResponseSchema.gender := form_gender request;
              ProfileCreateResponseSchema.date_of_birth :=
                form_date_of_birth request;
              ProfileCreateResponseSchema.info :=
                PyStr.strip (form_info request);
              ProfileCreateResponseSchema.avatar :=
                get_file_url (s3 w') (UserProfileModel.avatar row) |}
      /\ UserProfileModel.user_id row = path_user_id request
      /\ ((forall key, get_file_url (s3 w') key <> key) ->
          ProfileCreateResponseSchema.avatar body <> UserProfileModel.avatar row).
Proof.
  intros Hret resp w'. subst resp w'.
  rewrite post_profile_eq. cbn [fst snd]. rewrite Hret. cbn [respond].
  split; [reflexivity|].
  destruct (endpoint_returned _ _ _ _ Hret)
    as (pd & cu & t & s' & Hc & _ & -> & Hdb & Hs3 & _).
  destruct Hc as (Hf & _).
  rewrite Hdb, Hs3. cbn [profiles]. eexists. split; [reflexivity|].
  rewrite (stored_row_fields _ _ _ Hf).
  cbn [UserProfileModel.id UserProfileModel.avatar UserProfileModel.user_id
       ProfileCreateResponseSchema.avatar].
  repeat (split; [reflexivity|]).
  intros Hurl. apply Hurl.
Qed.


(** C9: each of the six field validators answers a value that violates
    its rule with a 422 whose detail is a list of one entry of type
    value_error, located at that field, with the reason and the
    submitted value (the ISO text of the date, the file name of the
    attachment); and a request with a violating field is answered with
    such a 422 for one of its violating fields, and changes nothing. *)
Theorem field_violation_yields_422
    (request : Request) (jwt_manager : J) (w : World S) :
  (forall value text,
      validate_name value = ValueError text ->
      ProfileCreateRequestSchema.validate_first_name value
      = Raised {| status_code := HTTP_422_UNPROCESSABLE_ENTITY;
                  detail := Entries
                    [ {| type_ := "value_error"; loc := ["first_name"];
                         msg := text; input := value |} ] |})
  /\ (forall value text,
         validate_name value = ValueError text ->
         ProfileCreateRequestSchema.validate_last_name value
         = Raised {| status_code := HTTP_422_UNPROCESSABLE_ENTITY;
                     detail := Entries
                       [ {| type_ := "value_error"; loc := ["last_name"];
                            msg := text; input := value |} ] |})
  /\ (forall value text,
         validate_gender value = ValueError text ->
         ProfileCreateRequestSchema.validate_gender_field value
         = Raised {| status_code := HTTP_422_UNPROCESSABLE_ENTITY;
                     detail := Entries
                       [ {| type_ := "value_error"; loc := ["gender"];
                            msg := text; input := value |} ] |})
  /\ (forall value text,
         validate_birth_date value = ValueError text ->
         ProfileCreateRequestSchema.validate_age value
         = Raised {| status_code := HTTP_422_UNPROCESSABLE_ENTITY;
                     detail := Entries
                       [ {| type_ := "value_error"; loc := ["date_of_birth"];
                            msg := text; input := date_str value |} ] |})
  /\ (forall value,
         PyStr.strip value = "" ->
         ProfileCreateRequestSchema.validate_info_field value
         = Raised {| status_code := HTTP_422_UNPROCESSABLE_ENTITY;
                     detail := Entries
                       [ {| type_ := "value_error"; loc := ["info"];
                            msg := "Info field cannot be empty or contain only spaces.";
                            input := value |} ] |})
  /\ (forall value text,
         validate_image value = ValueError text ->
         ProfileCreateRequestSchema.validate_avatar value
         = Raised {| status_code := HTTP_422_UNPROCESSABLE_ENTITY;
                     detail := Entries
                       [ {| type_ := "value_error"; loc := ["avatar"];
                            msg := text; input := filename value |} ] |})
  /\ ((exists entry, violation request entry) ->
      exists entry,
        violation request entry
        /\ post_profile request jwt_manager w
           = ({| status := HTTP_422_UNPROCESSABLE_ENTITY;
                 content := DetailJSON (Entries [entry]) |}, w)).
Proof.
  repeat split.
  - intros value text Hv.
    unfold ProfileCreateRequestSchema.validate_first_name. now rewrite Hv.
  - intros value text Hv.
    unfold ProfileCreateRequestSchema.validate_last_name. now rewrite Hv.
  - intros value text Hv.
    unfold ProfileCreateRequestSchema.validate_gender_field. now rewrite Hv.
  - intros value text Hv.
    unfold ProfileCreateRequestSchema.validate_age. now rewrite Hv.
  - intros value Hv.
    unfold ProfileCreateRequestSchema.validate_info_field. now rewrite Hv.
  - intros value text Hv.
    unfold ProfileCreateRequestSchema.validate_avatar. now rewrite Hv.
  - intros [entry0 Hv0].
    destruct (violation_raises _ _ Hv0) as [e He].
    destruct (as_form_raises _ _ He) as [entry [Hv ->]].
    exists entry. split; [assumption|].
    rewrite post_profile_eq, (endpoint_invalid_form _ _ _ _ He). reflexivity.
Qed.

(** C10: when the decoded payload has a falsy [user_id] claim, or none,
    [get_current_user] raises 401 with the text Invalid token. and
    leaves the world as it is; the claim is then absent or one of null,
    false, 0 and the empty string. *)
Theorem falsy_subject_is_invalid_token
    (request : Request) (jwt_manager : J) (w : World S)
    (token : string) (payload : PyDict) :
  presented_token request = Some token ->
  decode_access_token jwt_manager token = Payload payload ->
  truthy (dict_get payload "user_id") = false ->
  get_current_user request jwt_manager w
  = (Raised {| status_code := HTTP_401_UNAUTHORIZED;
               detail := Message "Invalid token." |}, w)
  /\ (dict_lookup payload "user_id" = None
      \/ dict_lookup payload "user_id" = Some PyNone
      \/ dict_lookup payload "user_id" = Some (PyBool false)
      \/ dict_lookup payload "user_id" = Some (PyInt 0)
      \/ dict_lookup payload "user_id" = Some (PyStr "")).
Proof.
  intros Hp Hd Hfalsy. split.
  - rewrite get_current_user_run. rewrite Hp.
    unfold presented_token in Hp.
    destruct (authorization request) as [auth_header|]; [|discriminate].
    destruct (PyStr.startswith auth_header "Bearer ") eqn:Hs; [|discriminate].
    rewrite (startswith_truthy _ Hs). cbn [negb].
    rewrite Hd, Hfalsy. reflexivity.
  - unfold dict_get in Hfalsy.
    destruct (dict_lookup payload "user_id") as [[|b|n|s]|]; cbn in Hfalsy.
    + auto.
    + subst b. auto.
    + apply negb_false_iff, Z.eqb_eq in Hfalsy. subst n. auto 6.
    + apply falsy_str in Hfalsy. subst s. auto 6.
    + auto.
Qed.

End Claims.

(** * Further properties *)

(** ** Strings *)

Lemma str_app_nil_r (s : string) : s ++ "" = s.
Proof. induction s as [|c s IH]; cbn [append]; [reflexivity|now rewrite IH]. Qed.

Lemma str_app_assoc (s1 s2 s3 : string) : (s1 ++ s2) ++ s3 = s1 ++ (s2 ++ s3).
Proof. induction s1 as [|c s1 IH]; cbn [append]; [reflexivity|now rewrite IH]. Qed.

Lemma rev_onto_app (s acc : string) :
  PyStr.rev_onto acc s = PyStr.rev_onto "" s ++ acc.
Proof.
  revert acc. induction s as [|c s IH]; intros acc; cbn [PyStr.rev_onto].
  - reflexivity.
  - rewrite IH, (IH (String c "")), str_app_assoc. reflexivity.
Qed.

Lemma prefix_split (p s : string) :
  String.prefix p s = true -> exists t, s = p ++ t.
Proof.
  revert s. induction p as [|a p IH]; intros s Hp.
  - exists s. reflexivity.
  - destruct s as [|b s]; cbn [String.prefix] in Hp; [discriminate|].
    destruct (Ascii.ascii_dec a b) as [->|]; [|discriminate].
    destruct (IH _ Hp) as [t ->]. exists t. reflexivity.
Qed.

(** The first piece of a split is the text before the first separator. *)
Lemma split_from_first (sep s : string) :
  forall cur,
    nth_error (PyStr.split_from sep O cur s) 0
    = Some (PyStr.rev_onto "" cur ++ str_before sep s).
Proof.
  induction s as [|c s IH]; intros cur; cbn [PyStr.split_from str_before].
  - cbn [nth_error]. now rewrite str_app_nil_r.
  - destruct (String.prefix sep (String c s)).
    + cbn [nth_error]. now rewrite str_app_nil_r.
    + rewrite IH. cbn [PyStr.rev_onto].
      rewrite (rev_onto_app cur (String c "")), str_app_assoc. reflexivity.
Qed.

Lemma str_before_all (sep s : string) :
  str_contains sep s = false -> str_before sep s = s.
Proof.
  induction s as [|c s IH]; cbn [str_contains str_before]; [reflexivity|].
  intros H. apply orb_false_elim in H. destruct H as [-> H].
  now rewrite IH.
Qed.

(** ** The token of a header *)

(** X1: the token handed to the manager is what follows the leading
    [Bearer ] up to the next occurrence of [Bearer ], or up to the end
    of the header when there is none; a credential that itself
    contains [Bearer ] is cut there. *)
Theorem bearer_token_is_text_before_next_marker
    (request : Request) (auth_header : string) :
  authorization request = Some auth_header ->
  PyStr.startswith auth_header "Bearer " = true ->
  exists rest,
    auth_header = "Bearer " ++ rest
    /\ presented_token request = Some (str_before "Bearer " rest)
    /\ (str_contains "Bearer " rest = false ->
        presented_token request = Some rest).
Proof.
  intros Ha Hs.
  destruct (prefix_split _ _ Hs) as [rest ->].
  exists rest. split; [reflexivity|].
  assert (Htok : presented_token request = Some (str_before "Bearer " rest)).
  { unfold presented_token. rewrite Ha, Hs.
    unfold PyStr.startswith in Hs. unfold PyStr.split.
    cbn [append] in *. cbn [PyStr.split_from]. rewrite Hs.
    exact (split_from_first "Bearer " rest ""). }
  split; [exact Htok|].
  intros Hnone. now rewrite Htok, str_before_all.
Qed.

(** ** Normalization *)

Lemma is_space_lower (c : ascii) :
  PyStr.is_space (PyStr.lower_char c) = PyStr.is_space c.
Proof. destruct c as [[] [] [] [] [] [] [] []]; reflexivity. Qed.

Lemma lower_char_idem (c : ascii) :
  PyStr.lower_char (PyStr.lower_char c) = PyStr.lower_char c.
Proof. destruct c as [[] [] [] [] [] [] [] []]; reflexivity. Qed.

Lemma lower_idem (s : string) : PyStr.lower (PyStr.lower s) = PyStr.lower s.
Proof.
  induction s as [|c s IH]; cbn [PyStr.lower]; [reflexivity|].
  now rewrite lower_char_idem, IH.
Qed.

Lemma lower_lstrip (s : string) :
  PyStr.lower (PyStr.lstrip s) = PyStr.lstrip (PyStr.lower s).
Proof.
  induction s as [|c s IH]; cbn [PyStr.lower PyStr.lstrip]; [reflexivity|].
  rewrite is_space_lower. destruct (PyStr.is_space c); [exact IH|reflexivity].
Qed.

Lemma lower_rstrip (s : string) :
  PyStr.lower (PyStr.rstrip s) = PyStr.rstrip (PyStr.lower s).
Proof.
  induction s as [|c s IH]; cbn [PyStr.lower PyStr.rstrip]; [reflexivity|].
  rewrite <- IH, is_space_lower.
  destruct (PyStr.rstrip s) as [|d r]; cbn [PyStr.lower].
  - destruct (PyStr.is_space c); reflexivity.
  - reflexivity.
Qed.

Lemma lower_strip (s : string) :
  PyStr.lower (PyStr.strip s) = PyStr.strip (PyStr.lower s).
Proof. unfold PyStr.strip. now rewrite lower_rstrip, lower_lstrip. Qed.

Lemma rstrip_idem (s : string) : PyStr.rstrip (PyStr.rstrip s) = PyStr.rstrip s.
Proof.
  induction s as [|c s IH]; cbn [PyStr.rstrip]; [reflexivity|].
  destruct (PyStr.rstrip s) as [|d r] eqn:Hr.
  - destruct (PyStr.is_space c) eqn:Hc; cbn [PyStr.rstrip]; [reflexivity|].
    now rewrite Hc.
  - cbn [PyStr.rstrip]. cbn [PyStr.rstrip] in IH. now rewrite IH.
Qed.

(** A string that does not start with whitespace keeps its first
    character through [rstrip]. *)
Lemma lstrip_rstrip_fixed (s : string) :
  PyStr.lstrip s = s -> PyStr.lstrip (PyStr.rstrip s) = PyStr.rstrip s.
Proof.
  destruct s as [|c s]; [reflexivity|].
  cbn [PyStr.lstrip PyStr.rstrip].
  destruct (PyStr.is_space c) eqn:Hc.
  - intros Hl. exfalso.
    assert (Hlen : forall t, (String.length (PyStr.lstrip t) <= String.length t)%nat).
    { induction t as [|d t IHt]; cbn [PyStr.lstrip String.length]; [lia|].
      destruct (PyStr.is_space d); cbn [String.length]; lia. }
    specialize (Hlen s). rewrite Hl in Hlen. cbn [String.length] in Hlen. lia.
  - intros _. destruct (PyStr.rstrip s); cbn [PyStr.lstrip]; now rewrite Hc.
Qed.

Lemma lstrip_idem (s : string) : PyStr.lstrip (PyStr.lstrip s) = PyStr.lstrip s.
Proof.
  induction s as [|c s IH]; cbn [PyStr.lstrip]; [reflexivity|].
  destruct (PyStr.is_space c) eqn:Hc; [exact IH|].
  cbn [PyStr.lstrip]. now rewrite Hc.
Qed.

Lemma lstrip_strip (s : string) : PyStr.lstrip (PyStr.strip s) = PyStr.strip s.
Proof. unfold PyStr.strip. apply lstrip_rstrip_fixed, lstrip_idem. Qed.

Lemma rstrip_strip (s : string) : PyStr.rstrip (PyStr.strip s) = PyStr.strip s.
Proof. unfold PyStr.strip. apply rstrip_idem. Qed.

Lemma strip_idem (s : string) : PyStr.strip (PyStr.strip s) = PyStr.strip s.
Proof.
  unfold PyStr.strip at 1. now rewrite lstrip_strip, rstrip_strip.
Qed.

Lemma all_space_lstrip (s : string) : all_space (PyStr.lstrip s) = all_space s.
Proof.
  induction s as [|c s IH]; cbn [PyStr.lstrip all_space]; [reflexivity|].
  destruct (PyStr.is_space c) eqn:Hc; [exact IH|].
  cbn [all_space]. now rewrite Hc.
Qed.

Lemma rstrip_empty (s : string) : PyStr.rstrip s = "" <-> all_space s = true.
Proof.
  induction s as [|c s IH]; cbn [PyStr.rstrip all_space]; [tauto|].
  destruct (PyStr.rstrip s) as [|d r].
  - destruct (PyStr.is_space c); cbn [andb].
    + split; [intros _; now apply IH | reflexivity].
    + split; discriminate.
  - split; [discriminate|].
    intros Hs. apply andb_prop in Hs. destruct Hs as [_ Hs].
    apply IH in Hs. discriminate Hs.
Qed.

Lemma strip_empty (s : string) : PyStr.strip s = "" <-> all_space s = true.
Proof. unfold PyStr.strip. now rewrite rstrip_empty, all_space_lstrip. Qed.

(** X2: a name that [validate_first_name] or [validate_last_name]
    returns has no leading or trailing whitespace and no upper-case
    letter, and normalizing it again changes nothing: when it passes
    the name rule again, it comes back as it is. *)
Theorem normalized_names_are_fixed `{Validation} (value name : string) :
  ProfileCreateRequestSchema.validate_first_name value = Returned name
  \/ ProfileCreateRequestSchema.validate_last_name value = Returned name ->
  PyStr.lstrip name = name
  /\ PyStr.rstrip name = name
  /\ PyStr.lower name = name
  /\ (forall again,
        ProfileCreateRequestSchema.validate_first_name name = Returned again
        \/ ProfileCreateRequestSchema.validate_last_name name = Returned again ->
        again = name).
Proof.
  unfold ProfileCreateRequestSchema.validate_first_name,
    ProfileCreateRequestSchema.validate_last_name.
  intros Hret.
  assert (Hname : name = PyStr.strip (PyStr.lower value)).
  { destruct (validate_name value); destruct Hret as [Hret|Hret];
      (discriminate Hret || now injection Hret as <-). }
  assert (Hfix : PyStr.strip (PyStr.lower name) = name).
  { rewrite Hname, lower_strip, lower_idem. apply strip_idem. }
  split; [rewrite Hname; apply lstrip_strip|].
  split; [rewrite Hname; apply rstrip_strip|].
  split; [rewrite Hname; now rewrite lower_strip, lower_idem|].
  intros again Hagain. rewrite Hfix in Hagain.
  destruct (validate_name name); destruct Hagain as [Ha|Ha];
    (discriminate Ha || now injection Ha as <-).
Qed.

(** X3: [validate_info_field] raises exactly when the value is empty or
    made of whitespace only; what it returns is the trimmed value,
    which is not empty and has no leading or trailing whitespace. *)
Theorem info_is_rejected_iff_blank (value : string) :
  ((exists e, ProfileCreateRequestSchema.validate_info_field value = Raised e)
   <-> all_space value = true)
  /\ (forall clean,
        ProfileCreateRequestSchema.validate_info_field value = Returned clean ->
        clean = PyStr.strip value
        /\ clean <> ""
        /\ PyStr.strip clean = clean).
Proof.
  unfold ProfileCreateRequestSchema.validate_info_field.
  destruct (PyStr.truthy (PyStr.strip value)) eqn:Ht; cbn [negb].
  - assert (Hne : PyStr.strip value <> "")
      by (intros Hs; rewrite Hs in Ht; discriminate Ht).
    split.
    + split.
      * intros [e He]. discriminate He.
      * intros Hb. apply strip_empty in Hb. contradiction.
    + intros clean [= <-]. split; [reflexivity|]. split; [exact Hne|].
      apply strip_idem.
  - split.
    + split; [intros _|eauto].
      apply strip_empty. destruct (PyStr.strip value); [reflexivity|discriminate].
    + intros clean Hret. discriminate Hret.
Qed.

(** ** The schema as a whole *)

Section SchemaMore.
Context `{Validation}.

(** X4: [as_form] returns a schema exactly when the two names, the
    gender, the date and the attachment pass their rules and the info
    is not blank; the gender, the date and the attachment then come
    back as submitted. *)
Theorem form_accepted_iff_all_rules_pass
    (a b c : string) (d : date) (e : string) (f : UploadFile) :
  ((exists profile_data,
       ProfileCreateRequestSchema.as_form a b c d e f = Returned profile_data)
   <-> validate_name a = Passes
       /\ validate_name b = Passes
       /\ validate_gender c = Passes
       /\ validate_birth_date d = Passes
       /\ all_space e = false
       /\ validate_image f = Passes)
  /\ (forall profile_data,
        ProfileCreateRequestSchema.as_form a b c d e f = Returned profile_data ->
        ProfileCreateRequestSchema.gender profile_data = c
        /\ ProfileCreateRequestSchema.date_of_birth profile_data = d
        /\ ProfileCreateRequestSchema.avatar profile_data = f).
Proof.
  split.
  2:{ intros profile_data Hret.
      rewrite (as_form_returns _ _ _ _ _ _ _ Hret). auto. }
  assert (Hblank : all_space e = negb (PyStr.truthy (PyStr.strip e))).
  { destruct (all_space e) eqn:Hs.
    - apply strip_empty in Hs. now rewrite Hs.
    - destruct (PyStr.strip e) eqn:Hst; [|reflexivity].
      apply strip_empty in Hst. congruence. }
  unfold ProfileCreateRequestSchema.as_form, ProfileCreateRequestSchema.construct,
    ProfileCreateRequestSchema.validate_first_name,
    ProfileCreateRequestSchema.validate_last_name,
    ProfileCreateRequestSchema.validate_gender_field,
    ProfileCreateRequestSchema.validate_age,
    ProfileCreateRequestSchema.validate_info_field,
    ProfileCreateRequestSchema.validate_avatar.
  cbn [bind ret Monad_outcome]. rewrite Hblank.
  destruct (validate_name a);
    [|split; [intros [pd Hp]; discriminate Hp | intros (Hx & _); discriminate Hx]].
  destruct (validate_name b);
    [|split; [intros [pd Hp]; discriminate Hp | intros (_ & Hx & _); discriminate Hx]].
  destruct (validate_gender c);
    [|split; [intros [pd Hp]; discriminate Hp
             | intros (_ & _ & Hx & _); discriminate Hx]].
  destruct (validate_birth_date d);
    [|split; [intros [pd Hp]; discriminate Hp
             | intros (_ & _ & _ & Hx & _); discriminate Hx]].
  destruct (PyStr.truthy (PyStr.strip e)); cbn [negb];
    [|split; [intros [pd Hp]; discriminate Hp
             | intros (_ & _ & _ & _ & Hx & _); discriminate Hx]].
  destruct (validate_image f);
    [|split; [intros [pd Hp]; discriminate Hp
             | intros (_ & _ & _ & _ & _ & Hx); discriminate Hx]].
  split; [auto 10 | eauto].
Qed.

End SchemaMore.

(** ** The route as a whole *)

Section RouteMore.
Context {S J : Type}.
Context `{Validation} `{SqlBackend}.
Context `{S3StorageInterface S} `{JWTAuthManagerInterface J}.

(** Identity resolution reads the accounts table only. *)
Lemma get_current_user_reads_db (request : Request) (jwt_manager : J)
    (w1 w2 : World S) :
  db w1 = db w2 ->
  fst (get_current_user request jwt_manager w1)
  = fst (get_current_user request jwt_manager w2).
Proof.
  intros Hdb. rewrite !get_current_user_run. cbn [fst]. now rewrite Hdb.
Qed.

(** A target with a profile row is found with its profile loaded. *)
Lemma profile_is_loaded (d : Database) (user_id : Z) (target : UserModel.t) :
  has_profile d user_id = true ->
  select_user d user_id = Some target ->
  exists existing, UserModel_profile d target = Some existing.
Proof.
  unfold has_profile, UserModel_profile. intros Hex Hsel.
  apply existsb_exists in Hex. destruct Hex as [p [Hin Hp]].
  rewrite (select_user_id _ _ _ Hsel).
  destruct (find (fun q => UserProfileModel.user_id q =? user_id) (profiles d))
    as [existing|] eqn:Hfind; [eauto|].
  pose proof (find_none _ _ Hfind p Hin) as Hnone. cbn beta in Hnone.
  congruence.
Qed.

(** No row of an account without loaded profile belongs to it. *)
Lemma profile_not_loaded (d : Database) (user_id : Z) (target : UserModel.t) :
  select_user d user_id = Some target ->
  UserModel_profile d target = None ->
  ~ In user_id (map UserProfileModel.user_id (profiles d)).
Proof.
  unfold UserModel_profile. intros Hsel Hnone Hin.
  apply in_map_iff in Hin. destruct Hin as [p [Hp Hin]].
  pose proof (find_none _ _ Hnone p Hin) as Hf. cbn beta in Hf.
  rewrite (select_user_id _ _ _ Hsel), Hp, Z.eqb_refl in Hf. discriminate Hf.
Qed.

(** X5: when several fields violate their rules, the 422 is about the
    first of them in the order first_name, last_name, gender,
    date_of_birth, info, avatar, whatever the later fields hold and
    whoever sends the request; the world is left as it was. *)
Theorem first_violation_is_reported
    (request : Request) (jwt_manager : J) (w : World S) :
  let answer entry :=
    post_profile request jwt_manager w
    = ({| status := 422; content := DetailJSON (Entries [entry]) |}, w) in
  (forall text,
      validate_name (form_first_name request) = ValueError text ->
      answer (value_error "first_name" text (form_first_name request)))
  /\ (validate_name (form_first_name request) = Passes ->
      (forall text,
          validate_name (form_last_name request) = ValueError text ->
          answer (value_error "last_name" text (form_last_name request)))
      /\ (validate_name (form_last_name request) = Passes ->
          (forall text,
              validate_gender (form_gender request) = ValueError text ->
              answer (value_error "gender" text (form_gender request)))
          /\ (validate_gender (form_gender request) = Passes ->
              (forall text,
                  validate_birth_date (form_date_of_birth request)
                  = ValueError text ->
                  answer (value_error "date_of_birth" text
                            (date_str (form_date_of_birth request))))
              /\ (validate_birth_date (form_date_of_birth request) = Passes ->
                  (all_space (form_info request) = true ->
                   answer (value_error "info"
                             "Info field cannot be empty or contain only spaces."
                             (form_info request)))
                  /\ (all_space (form_info request) = false ->
                      forall text,
                        validate_image (form_avatar request) = ValueError text ->
                        answer (value_error "avatar" text
                                  (filename (form_avatar request)))))))).
Proof.
  intros answer. subst answer. cbn beta.
  assert (Hrun : forall e,
             ProfileCreateRequestSchema.as_form
               (form_first_name request) (form_last_name request)
               (form_gender request) (form_date_of_birth request)
               (form_info request) (form_avatar request) = Raised e ->
             post_profile request jwt_manager w
             = ({| status := status_code e; content := DetailJSON (detail e) |}, w)).
  { intros e He.
    rewrite post_profile_eq, (endpoint_invalid_form _ _ _ _ He). reflexivity. }
  unfold ProfileCreateRequestSchema.as_form, ProfileCreateRequestSchema.construct,
    ProfileCreateRequestSchema.validate_first_name,
    ProfileCreateRequestSchema.validate_last_name,
    ProfileCreateRequestSchema.validate_gender_field,
    ProfileCreateRequestSchema.validate_age,
    ProfileCreateRequestSchema.validate_info_field,
    ProfileCreateRequestSchema.validate_avatar in Hrun.
  cbn [bind ret Monad_outcome] in Hrun.
  split.
  { intros text Hv. rewrite Hv in Hrun. exact (Hrun _ eq_refl). }
  intros P1. rewrite P1 in Hrun. split.
  { intros text Hv. rewrite Hv in Hrun. exact (Hrun _ eq_refl). }
  intros P2. rewrite P2 in Hrun. split.
  { intros text Hv. rewrite Hv in Hrun. exact (Hrun _ eq_refl). }
  intros P3. rewrite P3 in Hrun. split.
  { intros text Hv. rewrite Hv in Hrun. exact (Hrun _ eq_refl). }
  intros P4. rewrite P4 in Hrun. split.
  { intros Hb. apply strip_empty in Hb. rewrite Hb in Hrun.
    exact (Hrun _ eq_refl). }
  intros Hb text Hv.
  destruct (PyStr.strip (form_info request)) as [|c rest] eqn:Hs.
  { apply strip_empty in Hs. congruence. }
  cbn [PyStr.truthy negb] in Hrun. rewrite Hv in Hrun. exact (Hrun _ eq_refl).
Qed.

(** X6: the account that [get_current_user] returns is a row of the
    accounts table, is active, and has the identifier that the
    [user_id] claim of the presented token is bound to. *)
Theorem resolved_caller_is_the_active_subject
    (request : Request) (jwt_manager : J) (w : World S) (user : UserModel.t) :
  fst (get_current_user request jwt_manager w) = Returned user ->
  In user (users (db w))
  /\ UserModel.is_active user = true
  /\ exists token payload,
      presented_token request = Some token
      /\ decode_access_token jwt_manager token = Payload payload
      /\ truthy (dict_get payload "user_id") = true
      /\ bind_integer (dict_get payload "user_id") = Some (UserModel.id user).
Proof.
  rewrite get_current_user_run. cbn [fst].
  destruct (authorization request) as [auth_header|]; [|discriminate].
  destruct (negb (PyStr.truthy auth_header)); [discriminate|].
  destruct (presented_token request) as [token|]; [|discriminate].
  destruct (decode_access_token jwt_manager token) as [payload| |] eqn:Hd;
    [|discriminate|discriminate].
  destruct (truthy (dict_get payload "user_id")) eqn:Ht; [|discriminate].
  unfold active_account.
  destruct (bind_integer (dict_get payload "user_id")) as [n|] eqn:Hb;
    [|discriminate].
  destruct (select_user (db w) n) as [u|] eqn:Hsel; [|discriminate].
  destruct (UserModel.is_active u) eqn:Ha; [|discriminate].
  intros [= <-].
  pose proof (select_user_id _ _ _ Hsel) as Hid.
  unfold select_user in Hsel. apply find_some in Hsel. destruct Hsel as [Hin _].
  split; [exact Hin|]. split; [exact Ha|].
  exists token, payload. rewrite Hid. auto.
Qed.

(** X7: when every check passes and the blob store accepts the avatar,
    the request is answered 201 with the body below, one row for the
    target is appended to the profiles, and the blob store is the one
    the upload returned. *)
Theorem valid_request_is_created
    (request : Request) (jwt_manager : J) (w : World S)
    (profile_data : ProfileCreateRequestSchema.t)
    (current_user target : UserModel.t) (s' : S) :
  checks_pass request jwt_manager w profile_data current_user target ->
  upload_file (s3 w)
    (avatar_key (path_user_id request) (filename (form_avatar request)))
    (read (form_avatar request)) = Some s' ->
  let resp := fst (post_profile request jwt_manager w) in
  let w' := snd (post_profile request jwt_manager w) in
  resp
  = {| status := HTTP_201_CREATED;
       content := ProfileJSON
         {| ProfileCreateResponseSchema.id := profile_id_seq (db w);
            ProfileCreateResponseSchema.user_id := path_user_id request;
            ProfileCreateResponseSchema.first_name :=
              PyStr.strip (PyStr.lower (form_first_name request));
            ProfileCreateResponseSchema.last_name :=
              PyStr.strip (PyStr.lower (form_last_name request));
            ProfileCreateResponseSchema.gender := form_gender request;
            ProfileCreateResponseSchema.date_of_birth :=
              form_date_of_birth request;
            ProfileCreateResponseSchema.info :=
              PyStr.strip (form_info request);
            ProfileCreateResponseSchema.avatar :=
              get_file_url s'
                (avatar_key (path_user_id request)
                   (filename (form_avatar request))) |} |}
  /\ profiles (db w')
     = (profiles (db w)
          ++ [stored_row (db w) (path_user_id request) profile_data])%list
  /\ has_profile (db w') (path_user_id request) = true
  /\ s3 w' = s'.
Proof.
  intros Hc Hup resp w'. subst resp w'.
  rewrite post_profile_eq. cbn [fst snd].
  generalize (endpoint_paths request jwt_manager w).
  generalize (fst (endpoint request jwt_manager w))
             (snd (endpoint request jwt_manager w)).
  intros o w' P.
  destruct Hc as (Hf & Hu & Hs & Ha & Hp & Hx).
  unfold form_validated in *.
  destruct P as [e Hf' | pd e Hf' Hu' | pd cu Hf' Hu' Hs' | pd cu t Hf' Hu' Hs' Ha'
                | pd cu t Hf' Hu' Hs' Ha' Hp' | pd cu t p Hf' Hu' Hs' Ha' Hp' Hx'
                | pd cu t Hc' Hup' | pd cu t s'' Hc' Hup' ];
    try congruence.
  - destruct Hc' as (Hf' & _). unfold form_validated in Hf'.
    assert (pd = profile_data) by congruence. subst pd.
    assert (s'' = s') by congruence. subst s''.
    cbn [respond db profiles s3]. repeat split.
    unfold has_profile. cbn [profiles]. rewrite existsb_app.
    cbn [existsb stored_row UserProfileModel.user_id].
    rewrite Z.eqb_refl. apply orb_true_iff. right. reflexivity.
Qed.

End RouteMore.

(** ** Outcomes and sequences of requests *)

Section Sequences.
Context {S J : Type}.
Context `{Validation} `{SqlBackend}.
Context `{S3StorageInterface S} `{JWTAuthManagerInterface J}.

(** X8: a request is answered with one of the statuses 201, 400, 401,
    403, 422 and 500, and the body is a profile exactly when the status
    is 201. *)
Theorem statuses_of_the_route
    (request : Request) (jwt_manager : J) (w : World S) :
  let resp := fst (post_profile request jwt_manager w) in
  In (status resp) [201; 400; 401; 403; 422; 500]
  /\ (status resp = 201 <-> exists body, content resp = ProfileJSON body).
Proof.
  cbn zeta. rewrite post_profile_eq. cbn [fst].
  generalize (endpoint_paths request jwt_manager w).
  generalize (fst (endpoint request jwt_manager w))
             (snd (endpoint request jwt_manager w)).
  intros o w' P.
  assert (Herr : forall e, In (status_code e) [400; 401; 403; 422; 500] ->
                   In (status (respond (Raised e))) [201; 400; 401; 403; 422; 500]
                   /\ (status (respond (Raised e)) = 201
                       <-> exists body,
                         content (respond (Raised e)) = ProfileJSON body)).
  { intros e He. cbn [respond status content]. split; [now right|].
    split.
    - intros H201. rewrite H201 in He. cbn in He.
      repeat destruct He as [He|He]; discriminate He || contradiction.
    - intros [body Hb]. discriminate Hb. }
  destruct P as [e Hf | pd e Hf Hu | pd cu Hf Hu Hs | pd cu t Hf Hu Hs Ha
                | pd cu t Hf Hu Hs Ha Hp | pd cu t p Hf Hu Hs Ha Hp Hx
                | pd cu t Hc Hup | pd cu t s' Hc Hup ];
    try (apply Herr; cbn; tauto).
  - apply Herr. destruct (as_form_raises _ _ Hf) as [entry [_ ->]]. cbn. tauto.
  - apply Herr. rewrite (get_current_user_status _ _ _ _ Hu). cbn. tauto.
  - cbn [respond status content]. split; [now left|].
    split; [eauto|reflexivity].
Qed.

(** X9: a request for an account that already has a profile row writes
    nothing, whoever sends it and whatever it holds: the world is left
    as it was and the answer is one of 400, 401, 403 and 422. *)
Theorem existing_profile_blocks_every_write
    (request : Request) (jwt_manager : J) (w : World S) :
  has_profile (db w) (path_user_id request) = true ->
  snd (post_profile request jwt_manager w) = w
  /\ In (status (fst (post_profile request jwt_manager w))) [400; 401; 403; 422].
Proof.
  intros Hhas. rewrite post_profile_eq. cbn [fst snd].
  generalize (endpoint_paths request jwt_manager w).
  generalize (fst (endpoint request jwt_manager w))
             (snd (endpoint request jwt_manager w)).
  intros o w' P.
  destruct P as [e Hf | pd e Hf Hu | pd cu Hf Hu Hs | pd cu t Hf Hu Hs Ha
                | pd cu t Hf Hu Hs Ha Hp | pd cu t p Hf Hu Hs Ha Hp Hx
                | pd cu t Hc Hup | pd cu t s' Hc Hup ];
    cbn [respond status status_code];
    try (split; [reflexivity | cbn; tauto]).
  - split; [reflexivity|].
    destruct (as_form_raises _ _ Hf) as [entry [_ ->]]. cbn. tauto.
  - split; [reflexivity|].
    rewrite (get_current_user_status _ _ _ _ Hu). cbn. tauto.
  - destruct Hc as (_ & _ & Hs & _ & _ & Hx).
    destruct (profile_is_loaded _ _ _ Hhas Hs) as [existing He]. congruence.
  - destruct Hc as (_ & _ & Hs & _ & _ & Hx).
    destruct (profile_is_loaded _ _ _ Hhas Hs) as [existing He]. congruence.
Qed.

(** X10: after a request has created the profile of an account, any
    further request for that account changes nothing and is not
    answered 201; when its form is valid and its caller is resolved and
    permitted, it is answered 400 with the text below. *)
Theorem second_creation_is_rejected
    (request1 : Request) (jwt_manager1 : J) (w : World S)
    (body : ProfileCreateResponseSchema.t)
    (request2 : Request) (jwt_manager2 : J) :
  fst (endpoint request1 jwt_manager1 w) = Returned body ->
  path_user_id request2 = path_user_id request1 ->
  let w1 := snd (endpoint request1 jwt_manager1 w) in
  snd (post_profile request2 jwt_manager2 w1) = w1
  /\ status (fst (post_profile request2 jwt_manager2 w1)) <> HTTP_201_CREATED
  /\ (forall profile_data current_user,
        form_validated request2 profile_data ->
        fst (get_current_user request2 jwt_manager2 w1) = Returned current_user ->
        permitted current_user (path_user_id request2) = true ->
        fst (post_profile request2 jwt_manager2 w1)
        = {| status := HTTP_400_BAD_REQUEST;
             content := DetailJSON (Message "User already has a profile.") |}).
Proof.
  intros Hret Hid w1.
  destruct (endpoint_returned _ _ _ _ Hret)
    as (pd & cu & t & s' & Hc & _ & _ & Hdb & _ & _).
  destruct Hc as (_ & _ & Hs & Ha & _ & _).
  fold w1 in Hdb.
  assert (Hs1 : select_user (db w1) (path_user_id request2) = Some t).
  { rewrite Hdb, Hid. exact Hs. }
  assert (Hhas : has_profile (db w1) (path_user_id request2) = true).
  { unfold has_profile. rewrite Hdb. cbn [profiles]. rewrite existsb_app.
    cbn [existsb stored_row UserProfileModel.user_id].
    rewrite Hid, Z.eqb_refl. apply orb_true_iff. right. reflexivity. }
  destruct (profile_is_loaded _ _ _ Hhas Hs1) as [existing Hx1].
  rewrite post_profile_eq. cbn [fst snd].
  split; [|split].
  - generalize (endpoint_paths request2 jwt_manager2 w1).
    generalize (fst (endpoint request2 jwt_manager2 w1))
               (snd (endpoint request2 jwt_manager2 w1)).
    intros o w' P. destruct P; try reflexivity;
      match goal with
      | Hc : checks_pass _ _ _ _ _ _ |- _ =>
          destruct Hc as (_ & _ & Hs' & _ & _ & Hx'); congruence
      end.
  - generalize (endpoint_paths request2 jwt_manager2 w1).
    generalize (fst (endpoint request2 jwt_manager2 w1))
               (snd (endpoint request2 jwt_manager2 w1)).
    intros o w' P.
    destruct P as [e Hf | pd2 e Hf Hu | | | | | pd2 cu2 t2 Hc Hup
                  | pd2 cu2 t2 s2 Hc Hup ];
      cbn [respond status status_code]; try discriminate.
    + destruct (as_form_raises _ _ Hf) as [entry [_ ->]]. discriminate.
    + rewrite (get_current_user_status _ _ _ _ Hu). discriminate.
    + destruct Hc as (_ & _ & Hs' & _ & _ & Hx'). congruence.
  - intros profile_data current_user Hf Hu Hp.
    rewrite (endpoint_handler _ _ _ _ _ Hf Hu).
    rewrite create_profile_already_exists
      with (target := t) (existing := existing); try assumption.
    reflexivity.
Qed.

(** X11: the route keeps the profiles table free of two rows for one
    account: if no account has two profile rows before a request, none
    has after it. *)
Theorem one_profile_per_account_is_kept
    (request : Request) (jwt_manager : J) (w : World S) :
  one_profile_per_account (db w) ->
  one_profile_per_account (db (snd (post_profile request jwt_manager w))).
Proof.
  unfold one_profile_per_account. intros Hinv.
  rewrite post_profile_eq. cbn [snd].
  generalize (endpoint_paths request jwt_manager w).
  generalize (fst (endpoint request jwt_manager w))
             (snd (endpoint request jwt_manager w)).
  intros o w' P. destruct P; try assumption.
  match goal with
  | Hc : checks_pass _ _ _ _ _ _ |- _ => destruct Hc as (_ & _ & Hs & _ & _ & Hx)
  end.
  cbn [db profiles]. rewrite map_app. cbn [map stored_row UserProfileModel.user_id].
  apply NoDup_app; [assumption | repeat constructor; intros [] |].
  intros a Hin [<-|[]].
  exact (profile_not_loaded _ _ _ Hs Hx Hin).
Qed.

(** X12: after an upload has failed, the relational store is as before,
    so in any later world with that store (whatever the blob store has
    become) the same request passes every check again, and is answered
    201 as soon as the upload is accepted. *)
Theorem failed_upload_can_be_retried
    (request : Request) (jwt_manager : J) (w : World S)
    (profile_data : ProfileCreateRequestSchema.t)
    (current_user target : UserModel.t) :
  checks_pass request jwt_manager w profile_data current_user target ->
  upload_file (s3 w)
    (avatar_key (path_user_id request) (filename (form_avatar request)))
    (read (form_avatar request)) = None ->
  forall w2 s',
    db w2 = db (snd (post_profile request jwt_manager w)) ->
    upload_file (s3 w2)
      (avatar_key (path_user_id request) (filename (form_avatar request)))
      (read (form_avatar request)) = Some s' ->
    checks_pass request jwt_manager w2 profile_data current_user target
    /\ status (fst (post_profile request jwt_manager w2)) = HTTP_201_CREATED
    /\ has_profile (db (snd (post_profile request jwt_manager w2)))
         (path_user_id request) = true.
Proof.
  intros Hc Hup w2 s' Hdb Hup2.
  assert (Hdb' : db w2 = db w).
  { rewrite Hdb, post_profile_eq. cbn [snd].
    destruct Hc as (Hf & Hu & Hs & Ha & Hp & Hx).
    rewrite (endpoint_handler _ _ _ _ _ Hf Hu).
    assert (Hav : ProfileCreateRequestSchema.avatar profile_data
                  = form_avatar request)
      by (rewrite (as_form_returns _ _ _ _ _ _ _ Hf); reflexivity).
    rewrite create_profile_upload_failed with (target := target)
      by (rewrite ?Hav; assumption).
    reflexivity. }
  assert (Hc2 : checks_pass request jwt_manager w2
                  profile_data current_user target).
  { destruct Hc as (Hf & Hu & Hs & Ha & Hp & Hx).
    unfold checks_pass. rewrite Hdb'.
    rewrite (get_current_user_reads_db request jwt_manager w2 w Hdb'). auto 10. }
  split; [exact Hc2|].
  rewrite post_profile_eq. cbn [fst snd].
  destruct Hc2 as (Hf & Hu & Hs & Ha & Hp & Hx).
  rewrite (endpoint_handler _ _ _ _ _ Hf Hu).
  assert (Hav : ProfileCreateRequestSchema.avatar profile_data
                = form_avatar request)
    by (rewrite (as_form_returns _ _ _ _ _ _ _ Hf); reflexivity).
  rewrite create_profile_created with (target := target) (s' := s')
    by (rewrite ?Hav; assumption).
  cbn [fst snd respond status db profiles]. split; [reflexivity|].
  unfold has_profile. cbn [profiles]. rewrite existsb_app.
  cbn [existsb stored_row UserProfileModel.user_id].
  rewrite Z.eqb_refl. apply orb_true_iff. right. reflexivity.
Qed.

End Sequences.

(** ** Storage keys *)

Lemma no_underscore_uint (d : Decimal.uint) :
  no_underscore (NilEmpty.string_of_uint d) = true.
Proof.
  induction d; cbn [NilEmpty.string_of_uint no_underscore]; auto.
Qed.

Lemma no_underscore_of_int (n : Z) : no_underscore (PyStr.of_int n) = true.
Proof.
  unfold PyStr.of_int, NilZero.string_of_int, NilZero.string_of_uint.
  destruct (Z.to_int n) as [d|d]; destruct d;
    try reflexivity; apply no_underscore_uint.
Qed.

Lemma of_int_inj (a b : Z) : PyStr.of_int a = PyStr.of_int b -> a = b.
Proof.
  unfold PyStr.of_int. intros Heq.
  assert (Hnz : forall n, Z.to_int n <> Decimal.Pos Decimal.Nil
                          /\ Z.to_int n <> Decimal.Neg Decimal.Nil).
  { intros [|p|p]; cbn [Z.to_int]; split; try discriminate;
      intros [= Hp]; exact (DecimalPos.Unsigned.to_uint_nonnil p Hp). }
  apply DecimalZ.to_int_inj.
  pose proof (NilZero.isi (Z.to_int a) (proj1 (Hnz a)) (proj2 (Hnz a))) as Ha.
  pose proof (NilZero.isi (Z.to_int b) (proj1 (Hnz b)) (proj2 (Hnz b))) as Hb.
  rewrite Heq in Ha. congruence.
Qed.

Lemma underscore_splits (s1 s2 f g : string) :
  no_underscore s1 = true -> no_underscore s2 = true ->
  s1 ++ String "_" f = s2 ++ String "_" g -> s1 = s2 /\ f = g.
Proof.
  revert s2. induction s1 as [|c s1 IH]; intros [|d s2] H1 H2 Heq;
    cbn [append no_underscore] in *.
  - injection Heq as <-. auto.
  - injection Heq as <- _. discriminate H2.
  - injection Heq as -> _. discriminate H1.
  - injection Heq as <- Heq.
    apply andb_prop in H1. apply andb_prop in H2.
    destruct (IH s2 (proj2 H1) (proj2 H2) Heq) as [<- <-]. auto.
Qed.

Lemma avatar_key_inj (a b : Z) (f g : string) :
  avatar_key a f = avatar_key b g -> a = b /\ f = g.
Proof.
  unfold avatar_key. cbn [append]. intros [= Heq].
  destruct (underscore_splits _ _ _ _ (no_underscore_of_int a)
              (no_underscore_of_int b) Heq) as [Hn <-].
  split; [now apply of_int_inj|reflexivity].
Qed.

Section Keys.
Context {S J : Type}.
Context `{Validation} `{SqlBackend}.
Context `{S3StorageInterface S} `{JWTAuthManagerInterface J}.

(** X13: the storage key tells the target and the file name apart: two
    accepted requests upload under the same key only if they have the
    same target account and the same file name, so an upload never
    replaces the avatar of another account. *)
Theorem stored_keys_identify_target_and_file
    (request1 : Request) (jwt_manager1 : J) (w1 : World S)
    (body1 : ProfileCreateResponseSchema.t)
    (request2 : Request) (jwt_manager2 : J) (w2 : World S)
    (body2 : ProfileCreateResponseSchema.t) :
  fst (endpoint request1 jwt_manager1 w1) = Returned body1 ->
  fst (endpoint request2 jwt_manager2 w2) = Returned body2 ->
  exists key1 data1 row1 key2 data2 row2,
    journal (snd (endpoint request1 jwt_manager1 w1))
    = (journal w1 ++ [BlobUpload key1 data1; RowInsert row1])%list
    /\ UserProfileModel.avatar row1 = key1
    /\ journal (snd (endpoint request2 jwt_manager2 w2))
       = (journal w2 ++ [BlobUpload key2 data2; RowInsert row2])%list
    /\ UserProfileModel.avatar row2 = key2
    /\ (key1 = key2 ->
        path_user_id request1 = path_user_id request2
        /\ filename (form_avatar request1) = filename (form_avatar request2)).
Proof.
  intros Hret1 Hret2.
  destruct (endpoint_returned _ _ _ _ Hret1)
    as (pd1 & cu1 & t1 & s1 & Hc1 & _ & _ & _ & _ & Hj1).
  destruct (endpoint_returned _ _ _ _ Hret2)
    as (pd2 & cu2 & t2 & s2 & Hc2 & _ & _ & _ & _ & Hj2).
  destruct Hc1 as (Hf1 & _). destruct Hc2 as (Hf2 & _).
  rewrite Hj1, Hj2.
  do 6 eexists. split; [reflexivity|].
  split; [rewrite (stored_row_fields _ _ _ Hf1); reflexivity|].
  split; [reflexivity|].
  split; [rewrite (stored_row_fields _ _ _ Hf2); reflexivity|].
  apply avatar_key_inj.
Qed.

End Keys.

(** ** The texts of the 401 answers *)

Section Messages.
Context {S J : Type}.
Context `{SqlBackend} `{JWTAuthManagerInterface J}.

(** X14: the text of a 401 raised by [get_current_user] tells its
    cause: the header is absent or empty; or it is not empty and does
    not start with [Bearer ]; or the token has expired; or the token is
    invalid or its subject is missing or falsy; or the subject
    designates no active account. *)
Theorem identity_failure_texts
    (request : Request) (jwt_manager : J) (w : World S) (e : HTTPException) :
  fst (get_current_user request jwt_manager w) = Raised e ->
  status_code e = HTTP_401_UNAUTHORIZED
  /\ ((detail e = Message "Authorization header is missing"
       /\ (authorization request = None \/ authorization request = Some ""))
      \/ (detail e
          = Message "Invalid Authorization header format. Expected 'Bearer <token>'"
          /\ exists auth_header,
              authorization request = Some auth_header
              /\ auth_header <> ""
              /\ PyStr.startswith auth_header "Bearer " = false)
      \/ (detail e = Message "Token has expired."
          /\ exists token,
              presented_token request = Some token
              /\ decode_access_token jwt_manager token = TokenExpiredError)
      \/ (detail e = Message "Invalid token."
          /\ exists token,
              presented_token request = Some token
              /\ (decode_access_token jwt_manager token = InvalidTokenError
                  \/ exists payload,
                       decode_access_token jwt_manager token = Payload payload
                       /\ truthy (dict_get payload "user_id") = false))
      \/ (detail e = Message "User not found or not active."
          /\ exists token payload,
              presented_token request = Some token
              /\ decode_access_token jwt_manager token = Payload payload
              /\ truthy (dict_get payload "user_id") = true
              /\ active_account (db w) (dict_get payload "user_id") = None)).
Proof.
  rewrite get_current_user_run. cbn [fst].
  destruct (authorization request) as [auth_header|] eqn:Ha.
  2:{ intros [= <-]. split; [reflexivity|]. left. auto. }
  destruct (PyStr.truthy auth_header) eqn:Ht; cbn [negb].
  2:{ intros [= <-]. split; [reflexivity|]. left. split; [reflexivity|].
      right. destruct auth_header; [reflexivity|discriminate]. }
  destruct (presented_token request) as [token|] eqn:Hp.
  2:{ intros [= <-]. split; [reflexivity|]. right. left.
      split; [reflexivity|]. exists auth_header.
      split; [reflexivity|]. split.
      - intros ->. discriminate Ht.
      - unfold presented_token in Hp. rewrite Ha in Hp.
        destruct (PyStr.startswith auth_header "Bearer ") eqn:Hs; [|reflexivity].
        destruct (bearer_token_defined _ Hs) as [token Htok]. congruence. }
  destruct (decode_access_token jwt_manager token) as [payload| |] eqn:Hd.
  - destruct (truthy (dict_get payload "user_id")) eqn:Hty.
    + destruct (active_account (db w) (dict_get payload "user_id")) eqn:Hacc;
        [discriminate|].
      intros [= <-]. split; [reflexivity|]. do 4 right.
      split; [reflexivity|]. exists token, payload. auto.
    + intros [= <-]. split; [reflexivity|]. do 3 right. left.
      split; [reflexivity|]. exists token. split; [reflexivity|].
      right. exists payload. auto.
  - intros [= <-]. split; [reflexivity|]. do 2 right. left.
    split; [reflexivity|]. exists token. auto.
  - intros [= <-]. split; [reflexivity|]. do 3 right. left.
    split; [reflexivity|]. exists token. auto.
Qed.

End Messages.
(** ** The claims on the concrete deployment *)

Import Deployment.

(** Bob asks for the profile of account 2: no check list passes, and
    the world is left as it was. *)
Lemma writes_only_after_all_checks_witness :
  snd (post_profile (request "bob" 2) jwt_manager world) = world.
Proof.
  apply (proj2 (writes_only_after_all_checks (request "bob" 2) jwt_manager world)).
  intros pd cu t (_ & Hu & _ & _ & Hp & _).
  vm_compute in Hu. injection Hu as <-. vm_compute in Hp. discriminate Hp.
Defined.

(** Bob asks for the profile of account 9, which has one: 403, not 400. *)
Lemma authorization_checks_in_order_witness :
  form_validated (request "bob" 9) validated_form
  /\ fst (get_current_user (request "bob" 9) jwt_manager world)
     = Returned (account 5 true USER)
  /\ status (fst (post_profile (request "bob" 9) jwt_manager world))
     = HTTP_403_FORBIDDEN
  /\ status (fst (post_profile (request "bob" 9) jwt_manager world))
     <> HTTP_400_BAD_REQUEST.
Proof.
  assert (Hf : form_validated (request "bob" 9) validated_form) by reflexivity.
  assert (Hu : fst (get_current_user (request "bob" 9) jwt_manager world)
               = Returned (account 5 true USER)) by reflexivity.
  split; [exact Hf|]. split; [exact Hu|].
  destruct (authorization_checks_in_order _ _ _ _ _ Hf Hu) as [_ Hc].
  apply (Hc (account 9 true USER) carol_profile); try reflexivity.
  discriminate.
Defined.

(** The admin creates the profile of account 2 while the blob store is
    out of reach. *)
Lemma upload_failure_is_500_witness :
  checks_pass (request "admin" 2) jwt_manager world_offline
    validated_form (account 1 true ADMIN) (account 2 true USER)
  /\ fst (post_profile (request "admin" 2) jwt_manager world_offline)
     = {| status := 500;
          content := DetailJSON
            (Message "Failed to upload avatar. Please try again later.") |}
  /\ db (snd (post_profile (request "admin" 2) jwt_manager world_offline))
     = database
  /\ UserModel_profile
       (db (snd (post_profile (request "admin" 2) jwt_manager world_offline)))
       (account 2 true USER) = None.
Proof.
  assert (Hc : checks_pass (request "admin" 2) jwt_manager world_offline
                 validated_form (account 1 true ADMIN) (account 2 true USER))
    by (repeat split; reflexivity).
  assert (Hup : upload_file (s3 world_offline)
                  (avatar_key (path_user_id (request "admin" 2))
                     (filename (form_avatar (request "admin" 2))))
                  (read (form_avatar (request "admin" 2))) = None)
    by reflexivity.
  split; [exact Hc|].
  destruct (upload_failure_is_500 _ _ _ _ _ _ Hc Hup) as (Hr & Hd & Hn & _).
  auto.
Defined.

(** C4 as stated fails: Bob is authenticated, is neither account 2 nor
    an admin, account 2 exists and is active, and yet the request with
    a blank info is answered 422, not 403. *)
Lemma forbidden_regardless_of_payload_fails :
  fst (get_current_user blank_info_request jwt_manager world)
  = Returned (account 5 true USER)
  /\ path_user_id blank_info_request <> UserModel.id (account 5 true USER)
  /\ UserModel.has_group (account 5 true USER) ADMIN = false
  /\ select_user (db world) (path_user_id blank_info_request)
     = Some (account 2 true USER)
  /\ UserModel.is_active (account 2 true USER) = true
  /\ fst (post_profile blank_info_request jwt_manager world)
     = {| status := 422;
          content := DetailJSON
            (Entries
               [ {| type_ := "value_error"; loc := ["info"];
                    msg := "Info field cannot be empty or contain only spaces.";
                    input := "   " |} ]) |}
  /\ status (fst (post_profile blank_info_request jwt_manager world))
     <> HTTP_403_FORBIDDEN.
Proof.
  repeat split; try reflexivity; discriminate.
Qed.

(** Bob asks for the profile of account 2 with a valid form: 403; the
    admin asks for it: not 403. *)
Lemma forbidden_when_not_permitted_witness :
  fst (get_current_user (request "bob" 2) jwt_manager world)
  = Returned (account 5 true USER)
  /\ fst (post_profile (request "bob" 2) jwt_manager world)
     = {| status := 403;
          content := DetailJSON
            (Message "You don't have permission to edit this profile.") |}
  /\ fst (get_current_user (request "admin" 2) jwt_manager world)
     = Returned (account 1 true ADMIN)
  /\ status (fst (post_profile (request "admin" 2) jwt_manager world))
     <> HTTP_403_FORBIDDEN.
Proof.
  assert (Hb : fst (get_current_user (request "bob" 2) jwt_manager world)
               = Returned (account 5 true USER)) by reflexivity.
  assert (Ha : fst (get_current_user (request "admin" 2) jwt_manager world)
               = Returned (account 1 true ADMIN)) by reflexivity.
  split; [exact Hb|]. split.
  - apply (proj1 (forbidden_when_not_permitted _ _ _ _ Hb)).
    + split; [discriminate|reflexivity].
    + exists (account 2 true USER). split; reflexivity.
    + exists validated_form. reflexivity.
  - split; [exact Ha|].
    apply (proj2 (forbidden_when_not_permitted _ _ _ _ Ha)).
    right. reflexivity.
Defined.

(** C5 as stated fails: the token of account 0 carries the subject 0,
    an active account 0 exists, the header has the [Bearer] form and
    the manager accepts the token, and yet identity resolution raises
    401. *)
Lemma identity_failure_with_subject_present :
  fst (get_current_user (request "zero" 2) jwt_manager world)
  = Raised {| status_code := 401; detail := Message "Invalid token." |}
  /\ ~ identity_failure subject_absent (request "zero" 2) jwt_manager (db world).
Proof.
  split; [reflexivity|].
  intros [Hnone | [[auth_header [Ha Hs]] | [token [Hp Hc]]]].
  - discriminate Hnone.
  - injection Ha as <-. discriminate Hs.
  - vm_compute in Hp. injection Hp as <-.
    destruct Hc as [Hc | [Hc | [payload [Hd [Habs | Hacc]]]]].
    + discriminate Hc.
    + discriminate Hc.
    + vm_compute in Hd. injection Hd as <-. discriminate Habs.
    + vm_compute in Hd. injection Hd as <-. discriminate Hacc.
Qed.

(** An expired token: 401, by the third of the cases, and the world is
    left as it was. *)
Lemma get_current_user_fails_exactly_witness :
  snd (get_current_user (request "old" 2) jwt_manager world) = world
  /\ identity_failure subject_falsy (request "old" 2) jwt_manager (db world).
Proof.
  destruct (get_current_user_fails_exactly (request "old" 2) jwt_manager world)
    as (Hw & Hiff & _).
  split; [exact Hw|].
  apply Hiff. eexists. reflexivity.
Defined.

(** The admin creates the profile of account 2 with the first name
    submitted as two blanks, Ada and a blank. *)
Lemma names_and_info_are_normalized_witness :
  fst (endpoint (request "admin" 2) jwt_manager world) = Returned created_body
  /\ exists row,
      profiles (db (snd (endpoint (request "admin" 2) jwt_manager world)))
      = (profiles (db world) ++ [row])%list
      /\ UserProfileModel.first_name row = "ada"
      /\ ProfileCreateResponseSchema.first_name created_body = "ada".
Proof.
  assert (Hret : fst (endpoint (request "admin" 2) jwt_manager world)
                 = Returned created_body) by reflexivity.
  split; [exact Hret|].
  destruct (names_and_info_are_normalized _ _ _ _ Hret)
    as (row & Hrow & _ & _ & _ & _ & _ & _ & Hada).
  exists row. split; [exact Hrow|]. exact (Hada eq_refl).
Defined.

(** The admin (account 1) creates the profile of account 2: the stored
    key is avatars/2_ followed by the file name. *)
Lemma stored_avatar_key_witness :
  fst (endpoint (request "admin" 2) jwt_manager world) = Returned created_body
  /\ exists row,
      profiles (db (snd (endpoint (request "admin" 2) jwt_manager world)))
      = (profiles (db world) ++ [row])%list
      /\ UserProfileModel.avatar row = "avatars/2_me.jpg".
Proof.
  assert (Hret : fst (endpoint (request "admin" 2) jwt_manager world)
                 = Returned created_body) by reflexivity.
  split; [exact Hret|].
  destruct (stored_avatar_key _ _ _ _ Hret)
    as (row & target & data & Hrow & Hsel & _ & Hkey & _).
  exists row. split; [exact Hrow|].
  vm_compute in Hsel. injection Hsel as <-. exact Hkey.
Defined.

(** The admin creates the profile of account 2: 201, and the avatar of
    the body is the URL of the stored key, not the key. *)
Lemma created_response_witness :
  fst (endpoint (request "admin" 2) jwt_manager world) = Returned created_body
  /\ fst (post_profile (request "admin" 2) jwt_manager world)
     = {| status := 201; content := ProfileJSON created_body |}
  /\ exists row,
      profiles (db (snd (post_profile (request "admin" 2) jwt_manager world)))
      = (profiles (db world) ++ [row])%list
      /\ ProfileCreateResponseSchema.avatar created_body
         <> UserProfileModel.avatar row.
Proof.
  assert (Hret : fst (endpoint (request "admin" 2) jwt_manager world)
                 = Returned created_body) by reflexivity.
  split; [exact Hret|].
  destruct (created_response _ _ _ _ Hret) as (Hresp & row & Hrow & _ & _ & Hne).
  split; [exact Hresp|].
  exists row. split; [exact Hrow|].
  apply Hne. intros key Hk.
  apply (f_equal String.length) in Hk.
  cbn [get_file_url bucket_storage] in Hk.
  rewrite length_append in Hk. cbn [String.length] in Hk. lia.
Defined.

(** A future date of birth is answered 422 on that field. *)
Lemma field_violation_yields_422_witness :
  ProfileCreateRequestSchema.validate_age {| year := 2999; month := 1; day := 2 |}
  = Raised {| status_code := 422;
              detail := Entries
                [ {| type_ := "value_error"; loc := ["date_of_birth"];
                     msg := "Invalid birth date - the date is in the future.";
                     input := "2999-01-02" |} ] |}
  /\ exists entry,
      violation blank_info_request entry
      /\ post_profile blank_info_request jwt_manager world
         = ({| status := 422; content := DetailJSON (Entries [entry]) |}, world).
Proof.
  destruct (field_violation_yields_422 blank_info_request jwt_manager world)
    as (_ & _ & _ & Hage & _ & _ & Hreq).
  split.
  - apply (Hage {| year := 2999; month := 1; day := 2 |}). reflexivity.
  - apply Hreq. eexists. do 4 right. left. split; reflexivity.
Defined.

(** The subjects 0, empty string and null, and the payload without
    subject, are all answered alike. *)
Lemma falsy_subject_is_invalid_token_witness :
  get_current_user (request "zero" 2) jwt_manager world
  = (Raised {| status_code := 401; detail := Message "Invalid token." |}, world)
  /\ get_current_user (request "blank" 2) jwt_manager world
     = (Raised {| status_code := 401; detail := Message "Invalid token." |}, world)
  /\ get_current_user (request "null" 2) jwt_manager world
     = (Raised {| status_code := 401; detail := Message "Invalid token." |}, world)
  /\ get_current_user (request "nobody" 2) jwt_manager world
     = (Raised {| status_code := 401; detail := Message "Invalid token." |}, world).
Proof.
  split; [|split; [|split]].
  - exact (proj1 (falsy_subject_is_invalid_token (request "zero" 2) jwt_manager
                    world "zero" [("user_id", PyInt 0)] eq_refl eq_refl eq_refl)).
  - exact (proj1 (falsy_subject_is_invalid_token (request "blank" 2) jwt_manager
                    world "blank" [("user_id", PyStr "")] eq_refl eq_refl eq_refl)).
  - exact (proj1 (falsy_subject_is_invalid_token (request "null" 2) jwt_manager
                    world "null" [("user_id", PyNone)] eq_refl eq_refl eq_refl)).
  - exact (proj1 (falsy_subject_is_invalid_token (request "nobody" 2) jwt_manager
                    world "nobody" [("sub", PyStr "x")] eq_refl eq_refl eq_refl)).
Defined.

(** ** The further properties on the concrete deployment *)

(** A credential that contains [Bearer ] is cut before it. *)
Lemma bearer_token_is_text_before_next_marker_witness :
  authorization (request "a Bearer b" 2) = Some "Bearer a Bearer b"
  /\ PyStr.startswith "Bearer a Bearer b" "Bearer " = true
  /\ presented_token (request "a Bearer b" 2) = Some "a ".
Proof.
  split; [reflexivity|]. split; [reflexivity|].
  destruct (bearer_token_is_text_before_next_marker
              (request "a Bearer b" 2) "Bearer a Bearer b" eq_refl eq_refl)
    as (rest & Hrest & Htok & _).
  injection Hrest as <-. exact Htok.
Defined.

(** The first name of the request, normalized. *)
Lemma normalized_names_are_fixed_witness :
  ProfileCreateRequestSchema.validate_first_name "  Ada " = Returned "ada"
  /\ PyStr.lstrip "ada" = "ada"
  /\ PyStr.rstrip "ada" = "ada"
  /\ PyStr.lower "ada" = "ada".
Proof.
  assert (Hret : ProfileCreateRequestSchema.validate_first_name "  Ada "
                 = Returned "ada") by reflexivity.
  split; [exact Hret|].
  destruct (normalized_names_are_fixed "  Ada " "ada" (or_introl Hret))
    as (Hl & Hr & Hlow & _).
  auto.
Defined.

(** Bob's token resolves to the active account 5 of the table. *)
Lemma resolved_caller_is_the_active_subject_witness :
  fst (get_current_user (request "bob" 2) jwt_manager world)
  = Returned (account 5 true USER)
  /\ In (account 5 true USER) (users (db world))
  /\ UserModel.is_active (account 5 true USER) = true.
Proof.
  assert (Hret : fst (get_current_user (request "bob" 2) jwt_manager world)
                 = Returned (account 5 true USER)) by reflexivity.
  split; [exact Hret|].
  destruct (resolved_caller_is_the_active_subject _ _ _ _ Hret)
    as (Hin & Hact & _).
  auto.
Defined.

(** The admin creates the profile of account 2. *)
Lemma valid_request_is_created_witness :
  checks_pass (request "admin" 2) jwt_manager world
    validated_form (account 1 true ADMIN) (account 2 true USER)
  /\ fst (post_profile (request "admin" 2) jwt_manager world)
     = {| status := 201; content := ProfileJSON created_body |}
  /\ has_profile (db (snd (post_profile (request "admin" 2) jwt_manager world))) 2
     = true.
Proof.
  assert (Hc : checks_pass (request "admin" 2) jwt_manager world
                 validated_form (account 1 true ADMIN) (account 2 true USER))
    by (repeat split; reflexivity).
  assert (Hup : upload_file (s3 world)
                  (avatar_key (path_user_id (request "admin" 2))
                     (filename (form_avatar (request "admin" 2))))
                  (read (form_avatar (request "admin" 2)))
                = Some {| reachable := true;
                          objects := [("avatars/2_me.jpg", file jpeg)] |})
    by reflexivity.
  split; [exact Hc|].
  destruct (valid_request_is_created _ _ _ _ _ _ _ Hc Hup) as (Hr & _ & Hh & _).
  split; [exact Hr | exact Hh].
Defined.

(** The admin asks for the profile of account 9, which has one. *)
Lemma existing_profile_blocks_every_write_witness :
  has_profile (db world) (path_user_id (request "admin" 9)) = true
  /\ snd (post_profile (request "admin" 9) jwt_manager world) = world
  /\ In (status (fst (post_profile (request "admin" 9) jwt_manager world)))
        [400; 401; 403; 422].
Proof.
  assert (Hh : has_profile (db world) (path_user_id (request "admin" 9)) = true)
    by reflexivity.
  split; [exact Hh|].
  exact (existing_profile_blocks_every_write (request "admin" 9) jwt_manager
           world Hh).
Defined.

(** The admin creates the profile of account 2, then account 2 asks for
    it again. *)
Lemma second_creation_is_rejected_witness :
  fst (endpoint (request "admin" 2) jwt_manager world) = Returned created_body
  /\ fst (post_profile (request "ada" 2) jwt_manager
            (snd (endpoint (request "admin" 2) jwt_manager world)))
     = {| status := 400;
          content := DetailJSON (Message "User already has a profile.") |}
  /\ snd (post_profile (request "ada" 2) jwt_manager
            (snd (endpoint (request "admin" 2) jwt_manager world)))
     = snd (endpoint (request "admin" 2) jwt_manager world).
Proof.
  assert (Hret : fst (endpoint (request "admin" 2) jwt_manager world)
                 = Returned created_body) by reflexivity.
  split; [exact Hret|].
  destruct (second_creation_is_rejected (request "admin" 2) jwt_manager world
              created_body (request "ada" 2) jwt_manager Hret eq_refl)
    as (Hw & _ & H400).
  split; [|exact Hw].
  apply (H400 validated_form (account 2 true USER)); reflexivity.
Defined.

(** The profiles of the deployment stay one per account when the admin
    creates the profile of account 2. *)
Lemma one_profile_per_account_is_kept_witness :
  one_profile_per_account (db world)
  /\ one_profile_per_account
       (db (snd (post_profile (request "admin" 2) jwt_manager world))).
Proof.
  assert (Hinv : one_profile_per_account (db world)).
  { unfold one_profile_per_account. cbn.
    constructor; [intros [] | constructor]. }
  split; [exact Hinv|].
  exact (one_profile_per_account_is_kept (request "admin" 2) jwt_manager
           world Hinv).
Defined.

(** The admin's request fails while the blob store is out of reach and
    succeeds once it is back. *)
Lemma failed_upload_can_be_retried_witness :
  status (fst (post_profile (request "admin" 2) jwt_manager world_offline)) = 500
  /\ db world = db (snd (post_profile (request "admin" 2) jwt_manager world_offline))
  /\ status (fst (post_profile (request "admin" 2) jwt_manager world)) = 201.
Proof.
  assert (Hc : checks_pass (request "admin" 2) jwt_manager world_offline
                 validated_form (account 1 true ADMIN) (account 2 true USER))
    by (repeat split; reflexivity).
  assert (Hup : upload_file (s3 world_offline)
                  (avatar_key (path_user_id (request "admin" 2))
                     (filename (form_avatar (request "admin" 2))))
                  (read (form_avatar (request "admin" 2))) = None)
    by reflexivity.
  assert (Hdb : db world
                = db (snd (post_profile (request "admin" 2) jwt_manager
                             world_offline))) by reflexivity.
  assert (Hup2 : upload_file (s3 world)
                   (avatar_key (path_user_id (request "admin" 2))
                      (filename (form_avatar (request "admin" 2))))
                   (read (form_avatar (request "admin" 2)))
                 = Some {| reachable := true;
                           objects := [("avatars/2_me.jpg", file jpeg)] |})
    by reflexivity.
  split; [reflexivity|]. split; [exact Hdb|].
  exact (proj1 (proj2 (failed_upload_can_be_retried _ _ _ _ _ _ Hc Hup
                         world _ Hdb Hup2))).
Defined.

(** The admin creates the profiles of accounts 2 and 5 with the same
    file: the keys differ. *)
Lemma stored_keys_identify_target_and_file_witness :
  fst (endpoint (request "admin" 2) jwt_manager world) = Returned created_body
  /\ (exists body5,
        fst (endpoint (request "admin" 5) jwt_manager world) = Returned body5)
  /\ exists key2 data2 row2 key5 data5 row5,
      journal (snd (endpoint (request "admin" 2) jwt_manager world))
      = (journal world ++ [BlobUpload key2 data2; RowInsert row2])%list
      /\ journal (snd (endpoint (request "admin" 5) jwt_manager world))
         = (journal world ++ [BlobUpload key5 data5; RowInsert row5])%list
      /\ key2 <> key5.
Proof.
  assert (H2 : fst (endpoint (request "admin" 2) jwt_manager world)
               = Returned created_body) by reflexivity.
  split; [exact H2|].
  split; [eexists; reflexivity|].
  destruct (stored_keys_identify_target_and_file
              (request "admin" 2) jwt_manager world created_body
              (request "admin" 5) jwt_manager world _ H2 eq_refl)
    as (key2 & data2 & row2 & key5 & data5 & row5 & Hj2 & _ & Hj5 & _ & Hsame).
  exists key2, data2, row2, key5, data5, row5.
  split; [exact Hj2|]. split; [exact Hj5|].
  intros Heq. destruct (Hsame Heq) as [Hid _]. discriminate Hid.
Defined.

(** An expired token is answered with the text for expiry. *)
Lemma identity_failure_texts_witness :
  fst (get_current_user (request "old" 2) jwt_manager world)
  = Raised {| status_code := 401; detail := Message "Token has expired." |}
  /\ status_code {| status_code := 401; detail := Message "Token has expired." |}
     = HTTP_401_UNAUTHORIZED.
Proof.
  assert (Hr : fst (get_current_user (request "old" 2) jwt_manager world)
               = Raised {| status_code := 401;
                           detail := Message "Token has expired." |})
    by reflexivity.
  split; [exact Hr|].
  exact (proj1 (identity_failure_texts _ _ _ _ Hr)).
Defined.
